(** * Shallow embedding of the kalyn-do inventory core (data_integrator.py,
    services/delivery_order_service.py, pages/3_Generate_Delivery_Order.py,
    Input_Data_Baru.py) and proofs of its specified behaviour. *)

From Stdlib Require Import ZArith String List Bool Ascii Lia.
Import ListNotations.
Open Scope string_scope.
Open Scope Z_scope.

(* ------------------------------------------------------------------ *)
(** ** The backing relational store *)

(** A row of the [item] table. *)
Record item_row := mk_item {
  i_id : Z;
  i_category_id : Z;
  i_item_name_id : Z;
  i_color_id : Z;
  i_created_year : option Z
}.

(** A row of [item_price_history]; [valid_to = None] is an open version. *)
Record price_row := mk_price {
  p_id : Z;
  p_item_id : Z;
  harga_kain : Z;
  ongkos_jahit : Z;
  ongkos_transport : Z;
  ongkos_packing : Z;
  valid_to : option Z
}.

(** A row of [item_stock_log], exactly the payload built by [insert_stock_log];
    [l_size = None] is a Python [None] value. *)
Record log_row := mk_log {
  l_item_id : Z;
  l_store_id : Z;
  l_size : option string;
  l_movement_type : string;
  l_quantity : Z
}.

(** A row of the [item_stock] aggregate (maintained by the store). *)
Record stock_row := mk_stock {
  s_item_id : Z;
  s_store_id : Z;
  s_size : string;
  s_quantity : Z
}.

(** The store state.  [faults] decides, call by call, whether an
    [.execute()] answers with an error payload ([true]) or normally
    ([false]); an exhausted list means every further call succeeds.
    [next_id] is the identity sequence, [clock] what [datetime.now]
    returns. *)
Record db := mk_db {
  items : list item_row;
  price_history : list price_row;
  item_stock_log : list log_row;
  item_stock : list stock_row;
  next_id : Z;
  clock : Z;
  faults : list bool
}.

Definition set_faults (d : db) (fs : list bool) : db :=
  mk_db (items d) (price_history d) (item_stock_log d) (item_stock d)
        (next_id d) (clock d) fs.
Definition set_items (d : db) (xs : list item_row) (n : Z) : db :=
  mk_db xs (price_history d) (item_stock_log d) (item_stock d) n (clock d) (faults d).
Definition set_prices (d : db) (xs : list price_row) (n : Z) : db :=
  mk_db (items d) xs (item_stock_log d) (item_stock d) n (clock d) (faults d).
Definition set_log (d : db) (xs : list log_row) : db :=
  mk_db (items d) (price_history d) xs (item_stock d) (next_id d) (clock d) (faults d).

(** The text [str(e)] of the [APIError] that [.execute()] raises when
    the store fails.  The client (supabase-py 2.x, which provides
    [supabase.schema]) raises instead of returning an error payload: its
    responses have no [error] attribute, so the code's
    [if getattr(resp, "error", None)] checks never fire and a failure
    reaches the [except] handler of the calling function. *)
Definition store_error : string := "<store error>".

(** ** A state monad over the store *)

Definition St (A : Type) : Type := db -> A * db.
Definition ret {A} (a : A) : St A := fun d => (a, d).
Definition bind {A B} (m : St A) (k : A -> St B) : St B :=
  fun d => let (a, d') := m d in k a d'.
Notation "x <- m ;; k" := (bind m (fun x => k))
  (at level 61, m at next level, right associativity).

(** One [.execute()] call: consume the next fault flag; on success run
    the read or write [f]; on failure return [None], standing for the
    [APIError] the call raises, and leave the tables untouched.  Each
    caller routes [None] to what its [except] handler does. *)
Definition execute {A} (f : db -> A * db) : St (option A) :=
  fun d =>
    match faults d with
    | true :: fs => (None, set_faults d fs)
    | false :: fs => let (a, d') := f (set_faults d fs) in (Some a, d')
    | [] => let (a, d') := f d in (Some a, d')
    end.

(** A read-only query. *)
Definition select {A} (f : db -> A) : St (option A) :=
  execute (fun d => (f d, d)).

Definition first {A} (xs : list A) : option A :=
  match xs with [] => None | x :: _ => Some x end.

(** [.table("item").select(..).eq(category_id).eq(item_name_id).eq(color_id)] *)
Definition item_matches (c n k : Z) (r : item_row) : bool :=
  (i_category_id r =? c) && (i_item_name_id r =? n) && (i_color_id r =? k).

Definition lookup_items (c n k : Z) (d : db) : list item_row :=
  filter (item_matches c n k) (items d).

(* ------------------------------------------------------------------ *)
(** ** [insert_stock_log] *)

(** The input dict: [None] for a key that is absent (or, for keys read
    with [row.get], holds [None]); [r_size] distinguishes an absent key
    ([None]) from a present one holding [Some v] ([v = None] is Python
    [None]). *)
Record log_input := mk_log_input {
  r_movement_type : option string;
  r_jumlah_barang : option Z;
  r_item_id : option Z;
  r_category_id : option Z;
  r_item_name_id : option Z;
  r_color_id : option Z;
  r_store_id : option Z;
  r_size : option (option string)
}.

Definition movement_types : list string :=
  ["in_stock"; "out"; "adjustment"; "transfer_in"; "transfer_out"].

Definition str_in (s : string) (xs : list string) : bool :=
  existsb (String.eqb s) xs.

(** The sign rules of lines 351-355. *)
Definition enforce_sign (movement_type : string) (qty : Z) : Z :=
  if str_in movement_type ["out"; "transfer_out"] then - Z.abs qty
  else if str_in movement_type ["in_stock"; "transfer_in"] then Z.abs qty
  else qty.

(** [row.get("size", "OS")] *)
Definition size_or_default (s : option (option string)) : option string :=
  match s with None => Some "OS" | Some v => v end.

Definition insert_stock_log (row : log_input)
  : St (bool * string * option log_row) :=
  match r_movement_type row with
  | None => ret (false, "'movement_type'", None)
  | Some movement_type =>
    if negb (str_in movement_type movement_types) then
      ret (false, "Invalid movement_type: " ++ movement_type, None)
    else
    match r_jumlah_barang row with
    | None => ret (false, "Missing jumlah_barang", None)
    | Some qty0 =>
      if qty0 =? 0 then ret (false, "Quantity cannot be zero", None) else
      let qty := enforce_sign movement_type qty0 in
      let continue_with (item_id : Z) : St (bool * string * option log_row) :=
        match r_store_id row with
        | None => ret (false, "'store_id'", None)
        | Some store_id =>
          let payload := mk_log item_id store_id (size_or_default (r_size row))
                                movement_type qty in
          resp <- execute (fun d => (tt, set_log d (app (item_stock_log d) [payload]))) ;;
          match resp with
          | None => ret (false, store_error, None) (* except: str(e) *)
          | Some _ => ret (true, "Inserted stock log", Some payload)
          end
        end in
      match r_item_id row with
      | Some item_id => continue_with item_id
      | None =>
        match r_category_id row, r_item_name_id row, r_color_id row with
        | None, _, _ => ret (false, "Missing category_id to resolve item_id", None)
        | _, None, _ => ret (false, "Missing item_name_id to resolve item_id", None)
        | _, _, None => ret (false, "Missing color_id to resolve item_id", None)
        | Some c, Some n, Some k =>
          resp <- select (lookup_items c n k) ;;
          match resp with
          | None => ret (false, store_error, None) (* except: str(e) *)
          | Some [] => ret (false,
              "Item not found for given category_id/item_name_id/color_id", None)
          | Some (it :: _) => continue_with (i_id it)
          end
        end
      end
    end
  end.

(* ------------------------------------------------------------------ *)
(** ** [transfer_via_logs] *)

Definition transfer_via_logs (item_id : Z) (size : string)
    (from_store_id to_store_id quantity : Z) : St (bool * string) :=
  if quantity <=? 0 then ret (false, "Quantity must be positive") else
  r_out <- insert_stock_log
             (mk_log_input (Some "transfer_out") (Some quantity) (Some item_id)
                None None None (Some from_store_id) (Some (Some size))) ;;
  let '(ok_out, msg_out, _) := r_out in
  if negb ok_out then ret (false, "transfer_out failed: " ++ msg_out) else
  r_in <- insert_stock_log
            (mk_log_input (Some "transfer_in") (Some quantity) (Some item_id)
               None None None (Some to_store_id) (Some (Some size))) ;;
  let '(ok_in, msg_in, _) := r_in in
  if negb ok_in then
    ret (false, "transfer_in failed after transfer_out: " ++ msg_in)
  else ret (true, "Transfer OK").

(* ------------------------------------------------------------------ *)
(** ** [insert_item]: item find-or-create and price versioning *)

(** The input dict of [insert_item]. *)
Record item_input := mk_item_input {
  ii_category_id : Z;
  ii_item_name_id : Z;
  ii_color_id : Z;
  ii_harga_kain : Z;
  ii_ongkos_jahit : Z;
  ii_ongkos_transport : Z;
  ii_ongkos_packing : Z;
  ii_created_year : option Z
}.

(** The third component of the returned tuple: [None] (from the
    [except] handler, which every store failure reaches) or
    [{"item": .., "price": .., "price_changed": ..}].  The
    [{"item": item_row}] results sit in the dead [.error] branches. *)
Inductive item_result :=
| NoData
| ItemPrice (it : item_row) (price : option price_row) (price_changed : bool).

Definition is_open (p : price_row) : bool :=
  match valid_to p with None => true | Some _ => false end.

(** Modelled from the spec: the [item_price_current] view, which is not
    part of the repository's sources.  It lists the currently open price
    versions of an item (those whose [valid_to] is unset), in table order. *)
Definition item_price_current (item_id : Z) (d : db) : list price_row :=
  filter (fun p => (p_item_id p =? item_id) && is_open p) (price_history d).

(** [all(current[k] == new_price[k] for k in (...))] *)
Definition same_price (cur : price_row) (row : item_input) : bool :=
  (harga_kain cur =? ii_harga_kain row) && (ongkos_jahit cur =? ii_ongkos_jahit row)
  && (ongkos_transport cur =? ii_ongkos_transport row)
  && (ongkos_packing cur =? ii_ongkos_packing row).

(** [.table("item").insert(item_payload)]: the store assigns the id. *)
Definition insert_item_row (c n k : Z) (cy : option Z) (d : db) : item_row * db :=
  let it := mk_item (next_id d) c n k cy in
  (it, set_items d (app (items d) [it]) (next_id d + 1)).

(** [.table("item_price_history").insert({"item_id": .., **new_price})] *)
Definition insert_price_row (item_id : Z) (row : item_input) (d : db) : price_row * db :=
  let p := mk_price (next_id d) item_id (ii_harga_kain row) (ii_ongkos_jahit row)
                    (ii_ongkos_transport row) (ii_ongkos_packing row) None in
  (p, set_prices d (app (price_history d) [p]) (next_id d + 1)).

Definition close_price (pid now : Z) (p : price_row) : price_row :=
  if p_id p =? pid then
    mk_price (p_id p) (p_item_id p) (harga_kain p) (ongkos_jahit p)
             (ongkos_transport p) (ongkos_packing p) (Some now)
  else p.

(** [.update({"valid_to": now_iso}).eq("id", current["id"])] *)
Definition update_valid_to (pid : Z) (d : db) : unit * db :=
  (tt, set_prices d (map (close_price pid (clock d)) (price_history d)) (next_id d)).

Definition insert_item_message (item_is_new price_changed : bool) : string :=
  if item_is_new && price_changed then "Item baru dibuat dan harga diset."
  else if negb item_is_new && price_changed then "Item sudah ada, harga diperbarui."
  else if negb item_is_new && negb price_changed then "Item sudah ada, harga tetap sama."
  else "Item baru dibuat.".

Definition insert_item (row : item_input) : St (bool * string * item_result) :=
  let c := ii_category_id row in
  let n := ii_item_name_id row in
  let k := ii_color_id row in
  (* 1) Find or create the item *)
  item_lookup <- select (fun d => first (lookup_items c n k d)) ;;
  match item_lookup with
  | None => ret (false, store_error, NoData) (* except: str(e), None *)
  | Some found =>
    found_or_new <-
      match found with
      | Some it => ret (Some (it, false))
      | None =>
        ins <- execute (insert_item_row c n k (ii_created_year row)) ;;
        ret (option_map (fun it => (it, true)) ins)
      end ;;
    match found_or_new with
    | None => ret (false, store_error, NoData)
    | Some (item_row, item_is_new) =>
      let item_id := i_id item_row in
      (* 2) Handle pricing via item_price_history *)
      current_price_resp <- select (fun d => first (item_price_current item_id d)) ;;
      match current_price_resp with
      | None => ret (false, store_error, NoData)
      | Some None =>
        price_insert <- execute (insert_price_row item_id row) ;;
        match price_insert with
        | None => ret (false, store_error, NoData)
        | Some p =>
          ret (true, insert_item_message item_is_new true, ItemPrice item_row (Some p) true)
        end
      | Some (Some current) =>
        if same_price current row then
          ret (true, insert_item_message item_is_new false,
               ItemPrice item_row (Some current) false)
        else
          price_close <- execute (update_valid_to (p_id current)) ;;
          match price_close with
          | None => ret (false, store_error, NoData)
          | Some _ =>
            price_insert <- execute (insert_price_row item_id row) ;;
            match price_insert with
            | None => ret (false, store_error, NoData)
            | Some p =>
              ret (true, insert_item_message item_is_new true,
                   ItemPrice item_row (Some p) true)
            end
          end
      end
    end
  end.

(* ------------------------------------------------------------------ *)
(** ** [get_item_qty_stock] *)

Definition stock_matches (item_id store_id : Z) (size : string) (r : stock_row) : bool :=
  (s_item_id r =? item_id) && (s_store_id r =? store_id) && String.eqb (s_size r) size.

Definition get_item_qty_stock (category_id item_name_id color_id store_id : Z)
    (size : string) : St (bool * string * Z) :=
  (* 1) Resolve the item_id from the master table *)
  item_resp <- select (fun d => first (lookup_items category_id item_name_id color_id d)) ;;
  match item_resp with
  | None => ret (false, store_error, 0) (* except: str(e), 0 *)
  | Some None => ret (true, "Item not found", 0)
  | Some (Some it) =>
    (* 2) Read stock snapshot for that item_id + store + size *)
    stock_resp <- select (fun d => first (filter (stock_matches (i_id it) store_id size)
                                                 (item_stock d))) ;;
    match stock_resp with
    | None => ret (false, store_error, 0)
    | Some None => ret (true, "No stock found", 0)
    | Some (Some r) => ret (true, "Fetched", s_quantity r)
    end
  end.

(* ------------------------------------------------------------------ *)
(** ** [build_delivery_order_from_rows] *)

(** A UI order row, typed as its docstring says ("Quantity": int,
    "Unit Price": int). *)
Record order_row := mk_order_row {
  o_sku : string;
  o_size : string;
  o_item : string;
  o_category : string;
  o_color : string;
  o_quantity : Z;
  o_unit_price : Z
}.

(** [DeliveryOrderLine]; the two [*_display] fields are
    [format_rupiah] renderings of [unit_price] and [line_total] and are
    left out. *)
Record do_line := mk_do_line {
  dl_index : Z;
  dl_label : string;
  dl_sku : string;
  dl_color : string;
  dl_size : string;
  dl_qty : Z;
  dl_unit_price : Z;
  dl_line_total : Z
}.

Record delivery_order := mk_delivery_order {
  outlet_name : string;
  lines : list do_line;
  grand_total : Z
}.

(** Python [x or d] on an int. *)
Definition py_or_int (x d : Z) : Z := if x =? 0 then d else x.
(** Python [s or d] on a str. *)
Definition py_or_str (s d : string) : string := if String.eqb s "" then d else s.

(** The loop body over [enumerate(order_rows, start=idx)], threading
    [lines] and [grand_total]. *)
Fixpoint build_lines (idx : Z) (rows : list order_row) (lines : list do_line)
    (grand_total : Z) : list do_line * Z :=
  match rows with
  | [] => (lines, grand_total)
  | row :: rest =>
    let qty := o_quantity row in
    if qty <=? 0 then build_lines (idx + 1) rest lines grand_total else
    let unit_price := py_or_int (o_unit_price row) 0 in
    let line_total := unit_price * qty in
    let label := "T005-" ++ o_category row ++ "-" ++ o_item row in
    let line := mk_do_line idx label (o_sku row) (o_color row)
                           (py_or_str (o_size row) "-") qty unit_price line_total in
    build_lines (idx + 1) rest (app lines [line]) (grand_total + line_total)
  end.

Definition build_delivery_order_from_rows (outlet_name : string)
    (order_rows : list order_row) : delivery_order :=
  let '(lines, grand_total) := build_lines 1 order_rows [] 0 in
  mk_delivery_order outlet_name lines grand_total.

(* ------------------------------------------------------------------ *)
(** ** [get_items_in_stock] and the delivery-order commit loop *)

(** Python values held in the dicts of the page. *)
Inductive pyval :=
| PInt (z : Z)
| PStr (s : string)
| PNone.

Definition pyval_eqb (a b : pyval) : bool :=
  match a, b with
  | PInt x, PInt y => x =? y
  | PStr x, PStr y => String.eqb x y
  | PNone, PNone => true
  | _, _ => false
  end.

(** A dict as an association list in insertion order. *)
Definition pydict (V : Type) := list (string * V).

Fixpoint dict_get {V} (k : string) (m : pydict V) : option V :=
  match m with
  | [] => None
  | (k', v) :: m' => if String.eqb k k' then Some v else dict_get k m'
  end.

(** [m[k] = v]: overwrite in place, or append a new key. *)
Fixpoint dict_set {V} (k : string) (v : V) (m : pydict V) : pydict V :=
  match m with
  | [] => [(k, v)]
  | (k', v') :: m' => if String.eqb k k' then (k', v) :: m' else (k', v') :: dict_set k v m'
  end.

Definition opt_str (o : option string) : pyval :=
  match o with Some s => PStr s | None => PNone end.

(** The [item:item_id (...)] embedded object of a stock query row. *)
Record joined_item := mk_joined_item {
  j_id : Z;
  j_sku : string;
  j_item_name_id : Z;
  j_category_id : Z;
  j_color_id : Z;
  j_item_name : option string;
  j_category : option string;
  j_color : option string
}.

(** A row of the [item_stock] query response. *)
Record stock_query_row := mk_sq_row {
  q_quantity : Z;
  q_size : string;
  q_item : option joined_item
}.

(** [prices_by_item_id.get(item_id)] where the dict is built by a
    comprehension over the price query response (the last row wins). *)
Definition price_get (item_id : Z) (prices : list (Z * pyval)) : pyval :=
  match fold_left (fun acc '(i, p) => if i =? item_id then Some p else acc) prices None with
  | Some p => p
  | None => PNone
  end.

Definition meta_entry (it : joined_item) (size : string) (harga_jual : pyval)
  : pydict pyval :=
  [("item_name", opt_str (j_item_name it)); ("category", opt_str (j_category it));
   ("color", opt_str (j_color it)); ("sku", PStr (j_sku it)); ("size", PStr size);
   ("harga_jual", harga_jual); ("quantity", PInt 0);
   ("item_name_id", PInt (j_item_name_id it)); ("category_id", PInt (j_category_id it));
   ("color_id", PInt (j_color_id it))].

Definition add_quantity (q : Z) (meta : pydict pyval) : pydict pyval :=
  match dict_get "quantity" meta with
  | Some (PInt x) => dict_set "quantity" (PInt (x + q)) meta
  | _ => meta
  end.

(** Step 4 of [get_items_in_stock]: group the stock rows by
    ["<sku>|<size>"], given the two query responses. *)
Fixpoint group_stock (prices : list (Z * pyval)) (rows : list stock_query_row)
    (result : pydict (pydict pyval)) : pydict (pydict pyval) :=
  match rows with
  | [] => result
  | row :: rest =>
    match q_item row with
    | None => group_stock prices rest result
    | Some it =>
      let size := q_size row in
      let key := j_sku it ++ "|" ++ size in
      let result1 :=
        match dict_get key result with
        | Some _ => result
        | None => dict_set key (meta_entry it size (price_get (j_id it) prices)) result
        end in
      let result2 :=
        match dict_get key result1 with
        | Some meta => dict_set key (add_quantity (q_quantity row) meta) result1
        | None => result1
        end in
      group_stock prices rest result2
    end
  end.

Definition get_items_in_stock (stock_data : list stock_query_row)
    (price_data : list (Z * pyval)) : pydict (pydict pyval) :=
  match stock_data with
  | [] => []
  | _ =>
    if existsb (fun r => match q_item r with Some _ => true | None => false end) stock_data
    then group_stock price_data stock_data []
    else []
  end.

(** [sku_size_to_key[(sku, size)] = key] for every entry. *)
Definition sku_size_to_key (items_in_stock : pydict (pydict pyval))
  : list ((pyval * pyval) * string) :=
  fold_left (fun acc '(key, meta) =>
               let sku := match dict_get "sku" meta with Some v => v | None => PNone end in
               let size := match dict_get "size" meta with Some v => v | None => PNone end in
               app (filter (fun e => negb (pyval_eqb (fst (fst e)) sku
                                           && pyval_eqb (snd (fst e)) size)) acc)
                   [((sku, size), key)])
            items_in_stock [].

Fixpoint pair_get (sku size : pyval) (m : list ((pyval * pyval) * string)) : option string :=
  match m with
  | [] => None
  | ((a, b), key) :: m' =>
    if pyval_eqb a sku && pyval_eqb b size then Some key else pair_get sku size m'
  end.

(** One row of the page's session state: [sku_i], [size_i], [qty_i]
    ([None] when the key is unset). *)
Record session_line := mk_session_line {
  sl_sku : option string;
  sl_size : option string;
  sl_qty : Z
}.

(** [not x] on an optional str. *)
Definition py_falsy (o : option string) : bool :=
  match o with None => true | Some s => String.eqb s "" end.

(** What the loop collects ([transfer_results] and the order rows'
    unit price and total), or the exception that stops the script. *)
Record transfer_result := mk_transfer_result {
  tr_sku : pyval; tr_size : pyval; tr_qty : Z; tr_ok : bool; tr_msg : string
}.

Inductive commit_outcome :=
| Raised (exc : string)
| Collected (transfer_results : list transfer_result) (order_rows : list (pyval * pyval)).

Definition WAREHOUSE_STORE_ID : Z := 4.

Definition dict_get_default (k : string) (d : pyval) (m : pydict pyval) : pyval :=
  match dict_get k m with Some v => v | None => d end.

(** [harga_jual * qty]; multiplying [None] raises a [TypeError]. *)
Definition py_mul (a : pyval) (q : Z) : option pyval :=
  match a with PInt x => Some (PInt (x * q)) | _ => None end.

(** The [if submitted:] loop of pages/3_Generate_Delivery_Order.py. *)
Fixpoint commit_loop (items_in_stock : pydict (pydict pyval))
    (keymap : list ((pyval * pyval) * string)) (target_store_id : Z)
    (session : list session_line) (results : list transfer_result)
    (order_rows : list (pyval * pyval)) : St commit_outcome :=
  match session with
  | [] => ret (Collected results order_rows)
  | sl :: rest =>
    let skip := commit_loop items_in_stock keymap target_store_id rest results order_rows in
    if py_falsy (sl_sku sl) || py_falsy (sl_size sl) || (sl_qty sl <=? 0) then skip else
    match pair_get (opt_str (sl_sku sl)) (opt_str (sl_size sl)) keymap with
    | None => skip
    | Some item_key =>
      match dict_get item_key items_in_stock with
      | None => ret (Raised "KeyError")
      | Some meta =>
        match dict_get "item_id" meta with
        | None => ret (Raised "KeyError: 'item_id'")
        | Some (PStr _ | PNone) => ret (Raised "TypeError")
        | Some (PInt item_id) =>
          let size := dict_get_default "size" PNone meta in
          let sku := dict_get_default "sku" PNone meta in
          let harga_jual := dict_get_default "harga_jual" PNone meta in
          match size with
          | PStr size_s =>
            r <- transfer_via_logs item_id size_s WAREHOUSE_STORE_ID target_store_id (sl_qty sl) ;;
            let '(ok, msg) := r in
            let results' := app results [mk_transfer_result sku size (sl_qty sl) ok msg] in
            match py_mul harga_jual (sl_qty sl) with
            | None => ret (Raised "TypeError")
            | Some total =>
              commit_loop items_in_stock keymap target_store_id rest results'
                          (app order_rows [(harga_jual, total)])
            end
          | _ => ret (Raised "TypeError")
          end
        end
      end
    end
  end.

Definition commit_order (items_in_stock : pydict (pydict pyval)) (target_store_id : Z)
    (session : list session_line) : St commit_outcome :=
  commit_loop items_in_stock (sku_size_to_key items_in_stock) target_store_id session [] [].

(* ------------------------------------------------------------------ *)
(** ** Master-data validators (Input_Data_Baru.py) *)



















(* ------------------------------------------------------------------ *)
(** ** Further functions of the same modules *)

(** A Python call that returns a value or raises an exception. *)
Inductive raises (A : Type) :=
| Returns (a : A)
| Throws (msg : string).
Arguments Returns {A} a.
Arguments Throws {A} msg.

(** [get_item_cost] (data_integrator.py): the first item with the
    triple, then the first of its current prices (the [item_price_current]
    view, modelled from the spec as in [insert_item]); an error of the
    store raises an [Exception] carrying its message. *)
Definition get_item_cost (category_id item_name_id color_id : Z)
  : St (raises (option (Z * Z * Z * Z))) :=
  item_resp <- select (fun d => first (lookup_items category_id item_name_id color_id d)) ;;
  match item_resp with
  | None => ret (Throws store_error)
  | Some None => ret (Returns None)
  | Some (Some it) =>
    price_resp <- select (fun d => first (item_price_current (i_id it) d)) ;;
    match price_resp with
    | None => ret (Throws store_error)
    | Some None => ret (Returns None)
    | Some (Some p) =>
      ret (Returns (Some (harga_kain p, ongkos_jahit p, ongkos_transport p, ongkos_packing p)))
    end
  end.

(** [get_item_id_from_attrs] (data_integrator.py). *)
Definition get_item_id_from_attrs (category_id item_name_id color_id : Z)
  : St (bool * string * option Z) :=
  resp <- select (fun d => first (lookup_items category_id item_name_id color_id d)) ;;
  match resp with
  | None => ret (false, store_error, None) (* except: str(e) *)
  | Some None => ret (false, "Item belum terdaftar di master item", None)
  | Some (Some it) => ret (true, "OK", Some (i_id it))
  end.

(** [get_item_qty_stock_by_item_id] (data_integrator.py), its second
    definition, which shadows the first. *)
Definition get_item_qty_stock_by_item_id (item_id store_id : Z) (size : string)
  : St (bool * string * Z) :=
  resp <- select (fun d => first (filter (stock_matches item_id store_id size) (item_stock d))) ;;
  match resp with
  | None => ret (false, store_error, 0) (* except: str(e) *)
  | Some None => ret (true, "No stock found", 0)
  | Some (Some r) => ret (true, "Fetched", s_quantity r)
  end.

(** [enumerate(xs, start=start)] *)
Fixpoint enumerate {A} (start : Z) (l : list A) : list (Z * A) :=
  match l with
  | [] => []
  | x :: l' => (start, x) :: enumerate (start + 1) l'
  end.

(** A rendered string, kept as the pieces it is formatted from:
    [IntStr z] is [str(z)] and [Rupiah z] is [format_rupiah(z)]. *)
Inductive piece :=
| Txt (s : string)
| IntStr (z : Z)
| Rupiah (z : Z).

(** An entry of [_expand_lines_for_barcode]: [label], [sku] and
    [price_display] ([line.unit_price_display], i.e.
    [format_rupiah(line.unit_price)]). *)
Record barcode_entry := mk_barcode_entry {
  be_label : string;
  be_sku : string;
  be_price_display : list piece
}.

Definition expand_lines_for_barcode (delivery_order : delivery_order) : list barcode_entry :=
  fold_left (fun result line =>
               fold_left (fun result _ =>
                            app result [mk_barcode_entry (dl_label line) (dl_sku line)
                                                         [Rupiah (dl_unit_price line)]])
                         (seq 0 (Z.to_nat (dl_qty line))) result)
            (lines delivery_order) [].

(** A key of the placeholder mapping of the Word templates:
    ["{{date}}"], ["{{store_location}}"], ["{{total_sum}}"], and
    ["{{<prefix>_<i>}}"] as [KSlot prefix i]. *)
Inductive doc_key :=
| KDate
| KStoreLocation
| KTotalSum
| KSlot (prefix : string) (i : Z).

Definition doc_key_eqb (a b : doc_key) : bool :=
  match a, b with
  | KDate, KDate | KStoreLocation, KStoreLocation | KTotalSum, KTotalSum => true
  | KSlot p i, KSlot q j => String.eqb p q && (i =? j)
  | _, _ => false
  end.

(** The [Dict[str, str]] mapping, in insertion order. *)
Definition doc_mapping := list (doc_key * list piece).

Fixpoint key_get (k : doc_key) (m : doc_mapping) : option (list piece) :=
  match m with
  | [] => None
  | (k', v) :: m' => if doc_key_eqb k k' then Some v else key_get k m'
  end.

(** [mapping[k] = v] *)
Fixpoint key_set (k : doc_key) (v : list piece) (m : doc_mapping) : doc_mapping :=
  match m with
  | [] => [(k, v)]
  | (k', v') :: m' => if doc_key_eqb k k' then (k', v) :: m' else (k', v') :: key_set k v m'
  end.

(** [range(a, b)] *)
Fixpoint zrange (a : Z) (n : nat) : list Z :=
  match n with O => [] | S n' => a :: zrange (a + 1) n' end.
Definition py_range (a b : Z) : list Z := zrange a (Z.to_nat (b - a)).

(** [max(xs, default=d)] *)
Definition py_max_default (xs : list Z) (d : Z) : Z :=
  match xs with [] => d | x :: xs' => fold_left Z.max xs' x end.

Definition MAX_DO_LINES : Z := 15.
Definition MAX_BARCODE_SLOTS : Z := 280.

(** The eight placeholders of a delivery-order row, in the order
    [_create_delivery_order_doc] fills them. *)
Definition do_line_fields (line : do_line) : pydict (list piece) :=
  [("no", [IntStr (dl_index line)]); ("cat", [Txt (dl_label line)]);
   ("color", [Txt (dl_color line)]); ("size", [Txt (dl_size line)]);
   ("harga", [Rupiah (dl_unit_price line)]); ("qty", [IntStr (dl_qty line)]);
   ("harga_sum", [Rupiah (dl_line_total line)]); ("barcode", [Txt (dl_sku line)])].

Definition do_blank_prefixes : list string :=
  ["no"; "cat"; "barcode"; "color"; "size"; "harga"; "qty"; "harga_sum"].

(** The text mapping built by [_create_delivery_order_doc] before its
    first pass ([date_display] is today's date). *)
Definition create_delivery_order_mapping (date_display : string)
    (delivery_order : delivery_order) : doc_mapping :=
  let mapping := [(KDate, [Txt date_display]);
                  (KStoreLocation, [Txt (outlet_name delivery_order)]);
                  (KTotalSum, [Rupiah (grand_total delivery_order)])] in
  let effective_lines := firstn (Z.to_nat MAX_DO_LINES) (lines delivery_order) in
  let mapping :=
    fold_left (fun mapping line =>
                 fold_left (fun mapping pv => key_set (KSlot (fst pv) (dl_index line)) (snd pv) mapping)
                           (do_line_fields line) mapping)
              effective_lines mapping in
  let max_used_index := py_max_default (map dl_index effective_lines) 0 in
  fold_left (fun mapping i =>
               fold_left (fun mapping key_prefix => key_set (KSlot key_prefix i) [Txt ""] mapping)
                         do_blank_prefixes mapping)
            (py_range (max_used_index + 1) (MAX_DO_LINES + 1)) mapping.

(** The three placeholders of a barcode slot. *)
Definition barcode_fields (entry : barcode_entry) : pydict (list piece) :=
  [("cat", [Txt (be_label entry)]); ("price", Txt "Rp " :: be_price_display entry);
   ("barcode", [Txt (be_sku entry)])].

Definition barcode_blank_prefixes : list string := ["cat"; "price"; "barcode"].

(** The text mapping built by [_create_barcode_doc] before its first
    pass.  The [None] branch is never taken ([i <= len(expanded)]). *)
Definition create_barcode_mapping (delivery_order : delivery_order) : doc_mapping :=
  let expanded := expand_lines_for_barcode delivery_order in
  let n := Z.min MAX_BARCODE_SLOTS (Z.of_nat (length expanded)) in
  let mapping :=
    fold_left (fun mapping i =>
                 match nth_error expanded (Z.to_nat (i - 1)) with
                 | Some entry =>
                   fold_left (fun mapping pv => key_set (KSlot (fst pv) i) (snd pv) mapping)
                             (barcode_fields entry) mapping
                 | None => mapping
                 end)
              (py_range 1 (n + 1)) [] in
  fold_left (fun mapping i =>
               fold_left (fun mapping prefix => key_set (KSlot prefix i) [Txt ""] mapping)
                         barcode_blank_prefixes mapping)
            (py_range (n + 1) (MAX_BARCODE_SLOTS + 1)) mapping.

(** The inner [for _ in range(line.qty)] loop of
    [_flatten_delivery_order_lines]: [true] when it returned early. *)
Fixpoint flatten_copies {A} (x : A) (k : nat) (max_slots : Z) (items : list A)
  : bool * list A :=
  match k with
  | O => (false, items)
  | S k' =>
    if max_slots <=? Z.of_nat (length items) then (true, items)
    else flatten_copies x k' max_slots (app items [x])
  end.

(** The outer loop over [enumerate(order.lines)] from position [idx];
    [barcodes] are the [file_id]s of [order.barcodes]. *)
Fixpoint flatten_lines (idx : nat) (ls : list do_line) (barcodes : list string)
    (max_slots : Z) (items : list (do_line * option string)) : list (do_line * option string) :=
  match ls with
  | [] => items
  | line :: rest =>
    let barcode_file_id := nth_error barcodes idx in
    match flatten_copies (line, barcode_file_id) (Z.to_nat (dl_qty line)) max_slots items with
    | (true, items') => items'
    | (false, items') => flatten_lines (S idx) rest barcodes max_slots items'
    end
  end.

(** [_flatten_delivery_order_lines] (doc_service.py), with
    [order.barcodes] given by their [file_id]s. *)
Definition flatten_delivery_order_lines (order : delivery_order) (barcodes : list string)
    (max_slots : Z) : list (do_line * option string) :=
  flatten_lines 0 (lines order) barcodes max_slots [].

(* ------------------------------------------------------------------ *)
(** ** Definitions used by the statements and the examples *)

(** The [i]-th fault flag still pending in the store. *)
Definition fault_at (d : db) (i : nat) : bool := nth i (faults d) false.


(** Sum of a list of integers. *)
Definition sum_Z (xs : list Z) : Z := fold_right Z.add 0 xs.

(** The item row [insert_item] settles on: the first row with the triple,
    or the row it creates. *)
Definition resolved_item (row : item_input) (d : db) : item_row :=
  match first (lookup_items (ii_category_id row) (ii_item_name_id row) (ii_color_id row) d) with
  | Some it => it
  | None => fst (insert_item_row (ii_category_id row) (ii_item_name_id row)
                                 (ii_color_id row) (ii_created_year row) d)
  end.

(** The store after step 1 of [insert_item] (find or create the item). *)
Definition after_item_step (row : item_input) (d : db) : db :=
  match first (lookup_items (ii_category_id row) (ii_item_name_id row) (ii_color_id row) d) with
  | Some _ => d
  | None => snd (insert_item_row (ii_category_id row) (ii_item_name_id row)
                                 (ii_color_id row) (ii_created_year row) d)
  end.

(** Whether step 1 of [insert_item] creates the item. *)
Definition item_is_new (row : item_input) (d : db) : bool :=
  match first (lookup_items (ii_category_id row) (ii_item_name_id row) (ii_color_id row) d) with
  | Some _ => false
  | None => true
  end.

(** The four cost components of a price version, and of an input row. *)
Definition comps_of (p : price_row) : Z * Z * Z * Z :=
  (harga_kain p, ongkos_jahit p, ongkos_transport p, ongkos_packing p).

Definition input_comps (row : item_input) : Z * Z * Z * Z :=
  (ii_harga_kain row, ii_ongkos_jahit row, ii_ongkos_transport row, ii_ongkos_packing row).

(** All price versions of an item, open or closed, in table order. *)
Definition versions_of (item_id : Z) (d : db) : list price_row :=
  filter (fun p => p_item_id p =? item_id) (price_history d).

(** The open version [insert_item] writes. *)
Definition new_version (row : item_input) (item_id pid : Z) : price_row :=
  mk_price pid item_id (ii_harga_kain row) (ii_ongkos_jahit row)
           (ii_ongkos_transport row) (ii_ongkos_packing row) None.

(** Two inputs naming the same (category, item name, color) triple. *)
Definition same_triple (r1 r2 : item_input) : Prop :=
  ii_category_id r1 = ii_category_id r2 /\ ii_item_name_id r1 = ii_item_name_id r2 /\
  ii_color_id r1 = ii_color_id r2.

(** A meta dict of the stock snapshot with no ["item_id"] key. *)
Definition no_item_id (m : pydict pyval) : Prop := dict_get "item_id" m = None.

(** [P] holds of every meta dict of a [key -> meta] dict. *)
Definition all_metas (P : pydict pyval -> Prop) (r : pydict (pydict pyval)) : Prop :=
  Forall (fun kv => P (snd kv)) r.

(** Every key of [sku_size_to_key] is a key of [items_in_stock]. *)
Definition keys_resolve (items_in_stock : pydict (pydict pyval))
    (keymap : list ((pyval * pyval) * string)) : Prop :=
  Forall (fun e => exists m, dict_get (snd e) items_in_stock = Some m) keymap.












(** Statement helpers for the grouping of [get_items_in_stock], its
    key map and the delivery-order builder. *)

(** The ["<sku>|<size>"] key a stock query row is grouped under
    ([None] for a row without an item). *)
Definition stock_key (r : stock_query_row) : option string :=
  match q_item r with Some it => Some (j_sku it ++ "|" ++ q_size r) | None => None end.

Definition has_key (k : string) (r : stock_query_row) : bool :=
  match stock_key r with Some k' => String.eqb k' k | None => false end.

(** The summed quantity of the rows grouped under [k]. *)
Definition key_total (k : string) (rows : list stock_query_row) : Z :=
  sum_Z (map q_quantity (filter (has_key k) rows)).

(** One iteration of step 4 on a row with item [it]. *)
Definition group_step (key : string) (m_new : pydict pyval) (q : Z)
    (result : pydict (pydict pyval)) : pydict (pydict pyval) :=
  let result1 :=
    match dict_get key result with
    | Some _ => result
    | None => dict_set key m_new result
    end in
  match dict_get key result1 with
  | Some meta => dict_set key (add_quantity q meta) result1
  | None => result1
  end.

(** What step 4 has built after the rows [pre]: distinct keys, a key
    for exactly the grouped rows, and for each key the meta of the first
    row under it with the summed quantity. *)
Definition grouped (prices : list (Z * pyval)) (pre : list stock_query_row)
    (result : pydict (pydict pyval)) : Prop :=
  NoDup (map fst result) /\
  forall k, match dict_get k result with
  | Some m =>
    exists pre1 r post1 it, pre = (pre1 ++ r :: post1)%list /\ q_item r = Some it /\
      stock_key r = Some k /\ Forall (fun r' => has_key k r' = false) pre1 /\
      m = dict_set "quantity" (PInt (key_total k pre))
                   (meta_entry it (q_size r) (price_get (j_id it) prices))
  | None => Forall (fun r => has_key k r = false) pre
  end.

(** One iteration of the [sku_size_to_key] loop of the delivery-order
    page, as a function. *)
Definition keymap_step (acc : list ((pyval * pyval) * string)) (kv : string * pydict pyval) :=
  let '(key, meta) := kv in
  let sku := match dict_get "sku" meta with Some v => v | None => PNone end in
  let size := match dict_get "size" meta with Some v => v | None => PNone end in
  app (filter (fun e => negb (pyval_eqb (fst (fst e)) sku
                              && pyval_eqb (snd (fst e)) size)) acc)
      [((sku, size), key)].

(** The line [build_delivery_order_from_rows] makes of row [row] at
    position [i]. *)
Definition line_of (ir : Z * order_row) : do_line :=
  let '(i, row) := ir in
  mk_do_line i ("T005-" ++ o_category row ++ "-" ++ o_item row) (o_sku row) (o_color row)
             (py_or_str (o_size row) "-") (o_quantity row) (py_or_int (o_unit_price row) 0)
             (py_or_int (o_unit_price row) 0 * o_quantity row).

(** Concrete inputs for the examples. *)
Definition sample_db : db := mk_db [] [] [] [] 1 100 [].

Definition sample_out_input : log_input :=
  mk_log_input (Some "out") (Some 5) (Some 7) None None None (Some 4) None.

Definition sample_out_log : log_row := mk_log 7 4 (Some "OS") "out" (-5).

Definition sample_stock_db : db :=
  mk_db [mk_item 1 1 2 3 None] [] [] [mk_stock 1 4 "M" 12] 2 100 [].

Definition sample_row1 : item_input := mk_item_input 1 2 3 10 20 30 40 (Some 2024).

Definition sample_row2 : item_input := mk_item_input 1 2 3 11 20 30 40 (Some 2024).



Definition sample_stock_rows : list stock_query_row :=
  [mk_sq_row 5 "M" (Some (mk_joined_item 1 "SKU1" 2 1 3 (Some "Polo") (Some "Kaos") (Some "Merah")))].

Definition sample_session : list session_line := [mk_session_line (Some "SKU1") (Some "M") 2].

Definition sample_untyped_input : log_input :=
  mk_log_input None (Some 5) None (Some 1) (Some 2) (Some 3) (Some 4) None.

Definition sample_no_category_input : log_input :=
  mk_log_input (Some "in_stock") (Some 5) None None (Some 2) (Some 3) (Some 4) None.

Definition sample_resolve_input : log_input :=
  mk_log_input (Some "in_stock") (Some 5) None (Some 1) (Some 2) (Some 3) (Some 4) None.

Definition sample_item : item_row := mk_item 1 1 2 3 (Some 2024).

Definition sample_price : price_row := mk_price 2 1 10 20 30 40 None.

(** The store after [insert_item sample_row1 sample_db], whose next
    answers are: success, success, success, error. *)
Definition sample_priced_db : db :=
  mk_db [sample_item] [sample_price] [] [] 3 100 [false; false; false; true].

Definition sample_order_rows : list order_row :=
  [mk_order_row "SKU0" "M" "Polo" "Kaos" "Merah" 0 50000;
   mk_order_row "SKU1" "L" "Polo" "Kaos" "Merah" 2 50000].

Definition sample_order : delivery_order :=
  build_delivery_order_from_rows "Banda" sample_order_rows.

(* ------------------------------------------------------------------ *)
(** * Properties *)

Ltac split_match H :=
  match type of H with
  | context [match ?x with _ => _ end] =>
      lazymatch x with
      | context [match _ with _ => _ end] => fail
      | _ => destruct x eqn:?
      end
  end.

Ltac crush_in H :=
  repeat (unfold bind, ret, execute, select in H; cbn beta iota zeta in H;
          try discriminate; try (split_match H; try discriminate)).

(** ** [insert_stock_log] *)

Lemma insert_stock_log_success (row : log_input) (d : db) msg ins d' :
  insert_stock_log row d = (true, msg, ins, d') ->
  exists mt q item_id store_id,
    r_movement_type row = Some mt /\ str_in mt movement_types = true /\
    r_jumlah_barang row = Some q /\ q <> 0 /\ r_store_id row = Some store_id /\
    ins = Some (mk_log item_id store_id (size_or_default (r_size row)) mt
                       (enforce_sign mt q)) /\
    item_stock_log d' = (item_stock_log d ++
      [mk_log item_id store_id (size_or_default (r_size row)) mt (enforce_sign mt q)])%list.
Proof.
  intros H. destruct row as [mt0 q0 iid c n k st sz]; unfold insert_stock_log in H.
  cbn [r_movement_type r_jumlah_barang r_item_id r_category_id r_item_name_id
       r_color_id r_store_id r_size] in *.
  crush_in H.
  all: apply negb_false_iff in Heqb; apply Z.eqb_neq in Heqb0;
       injection H as <- <- <-; subst; do 4 eexists; repeat split; eauto.
Qed.

Lemma str_in_In (s : string) (xs : list string) : str_in s xs = true <-> In s xs.
Proof.
  unfold str_in; rewrite existsb_exists; split.
  - intros [x [Hx Heq]]; apply String.eqb_eq in Heq; subst; exact Hx.
  - intros Hs; exists s; split; [exact Hs | apply String.eqb_refl].
Qed.

(** C2: [insert_stock_log] rejects a movement type outside the five
    allowed kinds and a quantity of 0 without writing; when it succeeds
    the stored row has the given kind and the stored quantity is
    [-|q|] (negative) for [out]/[transfer_out], [|q|] (positive) for
    [in_stock]/[transfer_in], and [q] itself for [adjustment]. *)
Theorem insert_stock_log_kind_and_sign (row : log_input) (d : db) ok msg ins d' :
  insert_stock_log row d = (ok, msg, ins, d') ->
  (forall mt, r_movement_type row = Some mt -> ~ In mt movement_types ->
              ok = false /\ ins = None /\ d' = d) /\
  (r_jumlah_barang row = Some 0 -> ok = false /\ ins = None /\ d' = d) /\
  (ok = true ->
   exists mt q p,
     r_movement_type row = Some mt /\ In mt movement_types /\
     r_jumlah_barang row = Some q /\ q <> 0 /\
     ins = Some p /\ item_stock_log d' = (item_stock_log d ++ [p])%list /\
     l_movement_type p = mt /\
     ((mt = "out" \/ mt = "transfer_out") -> l_quantity p = - Z.abs q /\ l_quantity p < 0) /\
     ((mt = "in_stock" \/ mt = "transfer_in") -> l_quantity p = Z.abs q /\ 0 < l_quantity p) /\
     (mt = "adjustment" -> l_quantity p = q)).
Proof.
  intros H; split; [|split].
  - intros mt Hmt Hnot.
    rewrite <- str_in_In in Hnot; apply not_true_is_false in Hnot.
    unfold insert_stock_log in H; rewrite Hmt, Hnot in H; cbn in H.
    injection H as <- <- <- <-; auto.
  - intros Hq. unfold insert_stock_log in H; rewrite Hq in H.
    destruct (r_movement_type row) as [mt|]; cbv beta iota in H.
    + destruct (str_in mt movement_types); cbn in H; injection H as <- <- <- <-; auto.
    + injection H as <- <- <- <-; auto.
  - intros ->.
    destruct (insert_stock_log_success row d msg ins d' H)
      as (mt & q & iid & st & Hmt & Hin & Hq & Hq0 & Hst & Hins & Hlog).
    exists mt, q, (mk_log iid st (size_or_default (r_size row)) mt (enforce_sign mt q)).
    rewrite <- str_in_In.
    do 7 (split; [assumption || reflexivity|]).
    split; [|split].
    + intros [-> | ->]; cbn; split; lia.
    + intros [-> | ->]; cbn; split; lia.
    + intros ->; reflexivity.
Qed.

(** C10: a successful [insert_stock_log] appends the row it returns,
    whose size is ["OS"] when the input has no size key and the given
    value otherwise. *)
Theorem insert_stock_log_size_default (row : log_input) (d : db) msg p d' :
  insert_stock_log row d = (true, msg, Some p, d') ->
  In p (item_stock_log d') /\
  (r_size row = None -> l_size p = Some "OS") /\
  (forall v, r_size row = Some v -> l_size p = v).
Proof.
  intros H.
  destruct (insert_stock_log_success row d msg (Some p) d' H)
    as (mt & q & iid & st & _ & _ & _ & _ & _ & Hins & Hlog).
  injection Hins as ->. rewrite Hlog. split; [apply in_or_app; right; left; reflexivity|].
  split; [intros -> | intros v ->]; reflexivity.
Qed.

(** ** [transfer_via_logs] *)

(** C3: [transfer_via_logs] returns an error and writes nothing when
    [q <= 0]; when [q > 0] it writes a [transfer_out] row of [-q] at the
    source store and then a [transfer_in] row of [q] at the destination,
    same item and size; when the transfer-in write fails after the
    transfer-out write succeeded it reports failure and the transfer-out
    row stays in the ledger. *)
Theorem transfer_via_logs_contract (item_id : Z) (size : string)
    (from_store_id to_store_id q : Z) (d : db) :
  let '(res, d') := transfer_via_logs item_id size from_store_id to_store_id q d in
  let out := mk_log item_id from_store_id (Some size) "transfer_out" (- q) in
  let inn := mk_log item_id to_store_id (Some size) "transfer_in" q in
  (q <= 0 -> res = (false, "Quantity must be positive") /\ d' = d) /\
  (0 < q ->
   (fst res = true -> item_stock_log d' = (item_stock_log d ++ [out; inn])%list) /\
   (fault_at d 0 = true ->
      fst res = false /\ item_stock_log d' = item_stock_log d) /\
   (fault_at d 0 = false -> fault_at d 1 = true ->
      res = (false, "transfer_in failed after transfer_out: " ++ store_error) /\
      item_stock_log d' = (item_stock_log d ++ [out])%list) /\
   (fault_at d 0 = false -> fault_at d 1 = false ->
      res = (true, "Transfer OK") /\
      item_stock_log d' = (item_stock_log d ++ [out; inn])%list)).
Proof.
  unfold transfer_via_logs, fault_at.
  destruct (q <=? 0) eqn:Hq.
  - cbn. split; [intros _; auto | intros Hpos; apply Z.leb_le in Hq; lia].
  - apply Z.leb_gt in Hq.
    assert (Hq0 : (q =? 0) = false) by (apply Z.eqb_neq; lia).
    assert (Habs : Z.abs q = q) by lia.
    unfold insert_stock_log, bind, ret, execute; cbn - [Z.eqb Z.abs store_error].
    rewrite Hq0, Habs.
    destruct d as [its ph lg st nid clk fs0].
    destruct fs0 as [|[|] [|[|] fs]]; cbn - [Z.eqb Z.abs store_error];
      rewrite ?Hq0, ?Habs;
      (split; [intros; lia|]); intros _;
      repeat split; intros; try discriminate; rewrite <- ?app_assoc; reflexivity.
Qed.

(** ** [get_item_qty_stock] *)

Lemma get_item_qty_stock_cases (c n k st : Z) (sz : string) (d : db) :
  exists d',
  get_item_qty_stock c n k st sz d =
  (match fault_at d 0, first (lookup_items c n k d) with
   | true, _ => (false, store_error, 0)
   | false, None => (true, "Item not found", 0)
   | false, Some it =>
     match fault_at d 1, first (filter (stock_matches (i_id it) st sz) (item_stock d)) with
     | true, _ => (false, store_error, 0)
     | false, None => (true, "No stock found", 0)
     | false, Some r => (true, "Fetched", s_quantity r)
     end
   end, d') /\ items d' = items d /\ item_stock d' = item_stock d
         /\ price_history d' = price_history d /\ item_stock_log d' = item_stock_log d.
Proof.
  destruct d as [its ph lg st0 nid clk fs]; unfold get_item_qty_stock, fault_at.
  unfold bind, ret, select, execute; cbn [faults items item_stock nth].
  unfold lookup_items, set_faults.
  destruct fs as [|[|] [|[|] fs]];
    repeat (cbn -[first filter stock_matches item_matches];
            match goal with
            | |- context [first ?l] => destruct (first l)
            end);
    eexists; (split; [reflexivity | cbn; repeat split]).
Qed.

Ltac qty_cases c n k st sz d :=
  destruct (fault_at d 0) eqn:?;
  [|destruct (first (lookup_items c n k d)) as [it|] eqn:?;
    [destruct (fault_at d 1) eqn:?;
     [|destruct (first (filter (stock_matches (i_id it) st sz) (item_stock d))) eqn:?]|]];
  cbn; repeat split; intros; try discriminate; try congruence;
  try match goal with
      | H : ?l = [], S : first ?l = _ |- _ => rewrite H in S; discriminate
      end.


(** C9: when the item triple does not resolve, [get_item_qty_stock]
    returns [(true, "Item not found", 0)] and writes nothing; it returns
    [ok = false] only when a store call fails. *)
Theorem get_item_qty_stock_item_not_found (c n k st : Z) (sz : string) (d : db) :
  let '(ok, msg, qty, d') := get_item_qty_stock c n k st sz d in
  (fault_at d 0 = false -> lookup_items c n k d = [] ->
   (ok, msg, qty) = (true, "Item not found", 0) /\ items d' = items d
   /\ item_stock d' = item_stock d /\ item_stock_log d' = item_stock_log d) /\
  (ok = false -> fault_at d 0 = true \/ fault_at d 1 = true).
Proof.
  destruct (get_item_qty_stock_cases c n k st sz d) as (d' & -> & Hi & Hs & _ & Hl).
  qty_cases c n k st sz d; auto.
Qed.


(** ** The delivery-order builder *)

Lemma py_or_int_zero (x : Z) : py_or_int x 0 = x.
Proof. unfold py_or_int; destruct (Z.eqb_spec x 0); auto. Qed.

Lemma build_lines_spec (rows : list order_row) : forall idx acc g,
  let '(ls, g') := build_lines idx rows acc g in
  exists new,
    ls = (acc ++ new)%list /\ g' = g + sum_Z (map dl_line_total new) /\
    map (fun l => (dl_sku l, dl_qty l, dl_unit_price l)) new =
    map (fun r => (o_sku r, o_quantity r, o_unit_price r))
        (filter (fun r => 0 <? o_quantity r) rows) /\
    Forall (fun l => dl_line_total l = dl_unit_price l * dl_qty l /\ 0 < dl_qty l) new.
Proof.
  induction rows as [|row rest IH]; intros idx acc g; cbn.
  - exists []; rewrite app_nil_r; cbn; repeat split; [lia | constructor].
  - destruct (o_quantity row <=? 0) eqn:Hq.
    + assert (Hf : (0 <? o_quantity row) = false) by (apply Z.ltb_ge; apply Z.leb_le; exact Hq).
      rewrite Hf. apply IH.
    + assert (Hf : (0 <? o_quantity row) = true) by (apply Z.ltb_lt; apply Z.leb_gt; exact Hq).
      rewrite Hf.
      specialize (IH (idx + 1)
        (acc ++ [mk_do_line idx ("T005-" ++ o_category row ++ "-" ++ o_item row)
                   (o_sku row) (o_color row) (py_or_str (o_size row) "-")
                   (o_quantity row) (py_or_int (o_unit_price row) 0)
                   (py_or_int (o_unit_price row) 0 * o_quantity row)])%list
        (g + py_or_int (o_unit_price row) 0 * o_quantity row)).
      destruct (build_lines _ rest _ _) as [ls g'].
      destruct IH as (new & -> & -> & Hmap & Hall).
      eexists (_ :: new); split; [rewrite <- app_assoc; reflexivity|].
      unfold sum_Z; cbn [map fold_right dl_line_total dl_sku dl_qty dl_unit_price].
      rewrite py_or_int_zero, Hmap. split; [lia|]. split; [reflexivity|].
      constructor; [cbn; split; [reflexivity | apply Z.leb_gt; exact Hq] | exact Hall].
Qed.

(** C6: [build_delivery_order_from_rows] keeps exactly the rows with a
    positive quantity, in order, with their SKU, quantity and unit price;
    each line's total is unit price times quantity; the grand total is
    the sum of the line totals. *)
Theorem build_delivery_order_totals (outlet : string) (rows : list order_row) :
  let o := build_delivery_order_from_rows outlet rows in
  map (fun l => (dl_sku l, dl_qty l, dl_unit_price l)) (lines o) =
  map (fun r => (o_sku r, o_quantity r, o_unit_price r))
      (filter (fun r => 0 <? o_quantity r) rows) /\
  Forall (fun l => dl_line_total l = dl_unit_price l * dl_qty l /\ 0 < dl_qty l) (lines o) /\
  grand_total o = sum_Z (map dl_line_total (lines o)).
Proof.
  unfold build_delivery_order_from_rows.
  pose proof (build_lines_spec rows 1 [] 0) as H.
  destruct (build_lines 1 rows [] 0) as [ls g].
  destruct H as (new & -> & -> & Hmap & Hall); cbn.
  auto.
Qed.


(** ** Item and price reconciliation *)

Lemma insert_item_no_fault (row : item_input) (d : db) :
  faults d = [] ->
  insert_item row d =
  let it := resolved_item row d in
  let d1 := after_item_step row d in
  let is_new := item_is_new row d in
  match first (item_price_current (i_id it) d) with
  | None =>
    let (p, d2) := insert_price_row (i_id it) row d1 in
    (true, insert_item_message is_new true, ItemPrice it (Some p) true, d2)
  | Some cur =>
    if same_price cur row then
      (true, insert_item_message is_new false, ItemPrice it (Some cur) false, d1)
    else
      let (_, d2) := update_valid_to (p_id cur) d1 in
      let (p, d3) := insert_price_row (i_id it) row d2 in
      (true, insert_item_message is_new true, ItemPrice it (Some p) true, d3)
  end.
Proof.
  destruct d as [its ph lg st nid clk fs]; cbn [faults]; intros ->.
  unfold insert_item, resolved_item, after_item_step, item_is_new,
         lookup_items, item_price_current, bind, ret, select, execute.
  repeat (cbn -[first filter item_matches is_open same_price insert_item_message];
          match goal with
          | |- context [first ?l] => destruct (first l)
          | |- context [same_price ?a ?b] => destruct (same_price a b)
          end); reflexivity.
Qed.

Lemma same_price_iff (cur : price_row) (row : item_input) :
  same_price cur row = true <-> comps_of cur = input_comps row.
Proof.
  unfold same_price, comps_of, input_comps.
  rewrite !andb_true_iff, !Z.eqb_eq; split.
  - intros [[[-> ->] ->] ->]; reflexivity.
  - intros H; injection H as -> -> -> ->; tauto.
Qed.

(** Fault-free [insert_item]: the store and the result after one call. *)
Lemma insert_item_state (row : item_input) (d : db) :
  faults d = [] ->
  let it := resolved_item row d in
  let d1 := after_item_step row d in
  let '(ok, _, res, d') := insert_item row d in
  ok = true /\ items d' = items d1 /\ faults d' = [] /\ clock d' = clock d /\
  match first (item_price_current (i_id it) d) with
  | None =>
    res = ItemPrice it (Some (new_version row (i_id it) (next_id d1))) true /\
    price_history d' = (price_history d ++ [new_version row (i_id it) (next_id d1)])%list
  | Some cur =>
    (comps_of cur = input_comps row ->
     res = ItemPrice it (Some cur) false /\ price_history d' = price_history d) /\
    (comps_of cur <> input_comps row ->
     res = ItemPrice it (Some (new_version row (i_id it) (next_id d1))) true /\
     price_history d' = (map (close_price (p_id cur) (clock d)) (price_history d)
                         ++ [new_version row (i_id it) (next_id d1)])%list)
  end.
Proof.
  intros Hf. rewrite (insert_item_no_fault row d Hf).
  assert (Hd1 : faults (after_item_step row d) = [] /\
                price_history (after_item_step row d) = price_history d /\
                clock (after_item_step row d) = clock d).
  { unfold after_item_step; destruct (first _); cbn; auto. }
  destruct Hd1 as (Hf1 & Hp1 & Hc1).
  cbn zeta.
  destruct (first (item_price_current _ d)) as [cur|].
  - destruct (same_price cur row) eqn:Hs.
    + pose proof (proj1 (same_price_iff cur row) Hs) as He.
      cbn beta iota.
      do 4 (split; [assumption || reflexivity|]). split.
      * intros _; split; [reflexivity | exact Hp1].
      * intros Hne; contradiction.
    + assert (Hne : comps_of cur <> input_comps row)
        by (intros He'; apply same_price_iff in He'; congruence).
      unfold update_valid_to, insert_price_row, set_prices.
      cbn [price_history next_id clock items faults].
      do 4 (split; [assumption || reflexivity|]). split.
      * intros He; contradiction.
      * intros _; split; [reflexivity|]. rewrite Hp1, Hc1; reflexivity.
  - unfold insert_price_row, set_prices.
    cbn [price_history next_id clock items faults].
    do 4 (split; [assumption || reflexivity|]).
    split; [reflexivity|]. rewrite Hp1; reflexivity.
Qed.

Lemma item_matches_refl (c n k : Z) (cy : option Z) (i : Z) :
  item_matches c n k (mk_item i c n k cy) = true.
Proof. unfold item_matches; cbn; rewrite !Z.eqb_refl; reflexivity. Qed.

Lemma first_none_nil {A} (l : list A) : first l = None -> l = [].
Proof. destruct l; [reflexivity | discriminate]. Qed.

(** After a fault-free [insert_item], the triple resolves to the item it
    settled on. *)
Lemma lookup_after_insert_item (row : item_input) (d : db) :
  faults d = [] ->
  first (lookup_items (ii_category_id row) (ii_item_name_id row) (ii_color_id row)
                      (snd (insert_item row d))) = Some (resolved_item row d).
Proof.
  intros Hf. pose proof (insert_item_state row d Hf) as S.
  destruct (insert_item row d) as [[[ok msg] res] d'].
  destruct S as (_ & Hitems & _). cbn [snd].
  unfold lookup_items in *; rewrite Hitems.
  unfold after_item_step, resolved_item, lookup_items.
  destruct (first (filter _ (items d))) eqn:E; [exact E|].
  cbn [snd fst insert_item_row set_items items].
  rewrite filter_app, (first_none_nil _ E); cbn.
  rewrite item_matches_refl; reflexivity.
Qed.

Lemma resolved_item_after (row row' : item_input) (d : db) :
  faults d = [] -> same_triple row row' ->
  resolved_item row' (snd (insert_item row d)) = resolved_item row d /\
  item_is_new row' (snd (insert_item row d)) = false.
Proof.
  intros Hf (Hc & Hn & Hk).
  pose proof (lookup_after_insert_item row d Hf) as H.
  rewrite Hc, Hn, Hk in H.
  unfold resolved_item, item_is_new; rewrite H; auto.
Qed.

Lemma open_versions_after_close (iid pid now : Z) (l : list price_row) :
  filter (fun p => (p_item_id p =? iid) && is_open p) (map (close_price pid now) l) =
  filter (fun p => negb (p_id p =? pid))
         (filter (fun p => (p_item_id p =? iid) && is_open p) l).
Proof.
  induction l as [|p l IH]; [reflexivity|].
  cbn [map filter]. rewrite IH.
  unfold close_price; destruct (p_id p =? pid) eqn:E; cbn [p_item_id p_id is_open valid_to].
  - destruct ((p_item_id p =? iid) && is_open p); cbn; rewrite ?E, ?andb_false_r; reflexivity.
  - destruct ((p_item_id p =? iid) && is_open p); cbn; rewrite ?E; reflexivity.
Qed.

Lemma versions_after_close (iid pid now : Z) (l : list price_row) :
  filter (fun p => p_item_id p =? iid) (map (close_price pid now) l) =
  map (close_price pid now) (filter (fun p => p_item_id p =? iid) l).
Proof.
  induction l as [|p l IH]; [reflexivity|].
  cbn [map filter]. rewrite IH.
  replace (p_item_id (close_price pid now p)) with (p_item_id p)
    by (unfold close_price; destruct (p_id p =? pid); reflexivity).
  destruct (p_item_id p =? iid); reflexivity.
Qed.

Lemma first_singleton {A} (l : list A) (x : A) :
  first l = Some x -> (length l <= 1)%nat -> l = [x].
Proof.
  destruct l as [|y [|z l]]; cbn; intros H Hl; try discriminate.
  - injection H as ->; reflexivity.
  - lia.
Qed.

Lemma same_triple_refl (row : item_input) : same_triple row row.
Proof. repeat split. Qed.

Lemma new_version_open (row : item_input) (iid pid : Z) :
  (p_item_id (new_version row iid pid) =? iid) && is_open (new_version row iid pid) = true.
Proof. cbn; rewrite Z.eqb_refl; reflexivity. Qed.

(** After a fault-free call, the open version of the item carries the
    input's cost components, provided at most one was open before. *)
Lemma open_version_after_insert_item (row : item_input) (d : db) :
  faults d = [] ->
  (length (item_price_current (i_id (resolved_item row d)) d) <= 1)%nat ->
  exists cur,
    first (item_price_current (i_id (resolved_item row d)) (snd (insert_item row d))) = Some cur /\
    comps_of cur = input_comps row.
Proof.
  intros Hf Hlen.
  pose proof (insert_item_state row d Hf) as S.
  destruct (insert_item row d) as [[[ok msg] res] d1]; cbn [snd].
  destruct S as (_ & _ & _ & _ & S).
  unfold item_price_current in *.
  destruct (first (filter _ (price_history d))) as [cur|] eqn:Ecur.
  - destruct (same_price cur row) eqn:Hs.
    + apply same_price_iff in Hs.
      destruct S as [S _]. destruct (S Hs) as [_ ->].
      exists cur; auto.
    + assert (Hne : comps_of cur <> input_comps row)
        by (intros He; apply same_price_iff in He; congruence).
      destruct S as [_ S]. destruct (S Hne) as [_ ->].
      rewrite filter_app, open_versions_after_close, (first_singleton _ _ Ecur Hlen).
      cbn [filter]. rewrite Z.eqb_refl. cbn [negb app].
      rewrite new_version_open. eexists; split; reflexivity.
  - destruct S as [_ ->].
    rewrite filter_app, (first_none_nil _ Ecur). cbn [filter app].
    rewrite new_version_open.
    eexists; split; reflexivity.
Qed.

Lemma insert_item_idempotent (row : item_input) (d : db) :
  faults d = [] ->
  (length (item_price_current (i_id (resolved_item row d)) d) <= 1)%nat ->
  let '(_, _, _, d1) := insert_item row d in
  let '(ok2, _, res2, d2) := insert_item row d1 in
  ok2 = true /\ (exists it p, res2 = ItemPrice it p false) /\
  price_history d2 = price_history d1.
Proof.
  intros Hf Hlen.
  destruct (open_version_after_insert_item row d Hf Hlen) as (cur & Ecur & Hc).
  destruct (resolved_item_after row row d Hf (same_triple_refl row)) as [Hr _].
  pose proof (insert_item_state row d Hf) as S1.
  destruct (insert_item row d) as [[[ok1 m1] r1] d1]; cbn [snd] in *.
  destruct S1 as (_ & _ & Hf1 & _).
  pose proof (insert_item_state row d1 Hf1) as S2.
  destruct (insert_item row d1) as [[[ok2 m2] r2] d2].
  destruct S2 as (Hok2 & _ & _ & _ & S2).
  rewrite Hr, Ecur in S2. destruct S2 as [S2 _]. destruct (S2 Hc) as [-> ->].
  repeat split; auto. do 2 eexists; reflexivity.
Qed.

Lemma open_versions_nil (iid : Z) (l : list price_row) :
  filter (fun p => p_item_id p =? iid) l = [] ->
  filter (fun p => (p_item_id p =? iid) && is_open p) l = [].
Proof.
  induction l as [|p l IH]; cbn; [reflexivity|].
  destruct (p_item_id p =? iid); [discriminate | exact IH].
Qed.

Lemma insert_item_two_calls (row1 row2 : item_input) (d : db) :
  faults d = [] -> same_triple row1 row2 ->
  versions_of (i_id (resolved_item row1 d)) d = [] ->
  let iid := i_id (resolved_item row1 d) in
  let '(_, _, _, d1) := insert_item row1 d in
  let '(_, _, res2, d2) := insert_item row2 d1 in
  (input_comps row1 <> input_comps row2 ->
   (exists it p, res2 = ItemPrice it p true) /\
   exists p1 p2, versions_of iid d2 = [p1; p2] /\
     comps_of p1 = input_comps row1 /\ valid_to p1 = Some (clock d) /\
     comps_of p2 = input_comps row2 /\ valid_to p2 = None) /\
  (input_comps row1 = input_comps row2 ->
   (exists it p, res2 = ItemPrice it p false) /\
   exists p1, versions_of iid d2 = [p1] /\
     comps_of p1 = input_comps row1 /\ valid_to p1 = None).
Proof.
  intros Hf Htr Hv. cbn zeta.
  assert (Hcur : item_price_current (i_id (resolved_item row1 d)) d = [])
    by (apply open_versions_nil; exact Hv).
  destruct (resolved_item_after row1 row2 d Hf Htr) as [Hr _].
  pose proof (insert_item_state row1 d Hf) as S1.
  destruct (insert_item row1 d) as [[[ok1 m1] r1] d1]; cbn [snd] in *.
  destruct S1 as (_ & _ & Hf1 & Hc1 & S1).
  rewrite Hcur in S1; cbn [first] in S1. destruct S1 as [_ Hph1].
  set (iid := i_id (resolved_item row1 d)) in *.
  set (nv1 := new_version row1 iid (next_id (after_item_step row1 d))) in *.
  assert (Hcur1 : item_price_current iid d1 = [nv1]).
  { unfold item_price_current; rewrite Hph1, filter_app.
    unfold item_price_current in Hcur; rewrite Hcur; cbn [filter app].
    unfold nv1; rewrite new_version_open; reflexivity. }
  pose proof (insert_item_state row2 d1 Hf1) as S2.
  destruct (insert_item row2 d1) as [[[ok2 m2] r2] d2].
  destruct S2 as (_ & _ & _ & _ & S2).
  rewrite Hr in S2. fold iid in S2. rewrite Hcur1 in S2; cbn [first] in S2.
  destruct S2 as [Seq Sne].
  assert (Hv1 : versions_of iid d1 = [nv1]).
  { unfold versions_of; rewrite Hph1, filter_app; unfold versions_of in Hv; fold iid in Hv.
    rewrite Hv; cbn; rewrite Z.eqb_refl; reflexivity. }
  split.
  - intros Hne. destruct (Sne Hne) as [-> Hph2]. split; [do 2 eexists; reflexivity|].
    exists (close_price (p_id nv1) (clock d1) nv1),
           (new_version row2 iid (next_id (after_item_step row2 d1))).
    unfold versions_of; rewrite Hph2, filter_app, versions_after_close.
    unfold versions_of in Hv1; rewrite Hv1. cbn [map filter app].
    unfold close_price; rewrite Z.eqb_refl; cbn; rewrite Z.eqb_refl.
    repeat split; auto. rewrite Hc1; reflexivity.
  - intros Heq. destruct (Seq Heq) as [-> Hph2]. split; [do 2 eexists; reflexivity|].
    exists nv1. unfold versions_of; rewrite Hph2. unfold versions_of in Hv1; rewrite Hv1.
    repeat split; auto.
Qed.

(** C1: price versioning of [insert_item].  (A) On a store that answers
    every call, when the item has no open price version the call inserts
    one open version with the given four components and reports
    [price_changed = true]; when the open version has the same four
    components it is returned unchanged with [price_changed = false] and
    the history is untouched; otherwise that version is closed at the
    current time ([valid_to]) and a new open version with the given
    components is inserted, with [price_changed = true].  (B) Calling it
    twice with the same input adds no version and reports
    [price_changed = false] the second time.  (C) Calling it with
    components C1 and then C2 for the same item (which had no version)
    leaves exactly two versions, the first closed and the second open,
    when C1 <> C2, and exactly one open version when C1 = C2. *)
Theorem insert_item_price_versioning :
  (forall (row : item_input) (d : db),
   faults d = [] ->
   let it := resolved_item row d in
   let '(ok, _, res, d') := insert_item row d in
   ok = true /\
   match first (item_price_current (i_id it) d) with
   | None =>
     exists p, res = ItemPrice it (Some p) true /\ valid_to p = None /\
       p_item_id p = i_id it /\ comps_of p = input_comps row /\
       price_history d' = (price_history d ++ [p])%list
   | Some cur =>
     (comps_of cur = input_comps row ->
      res = ItemPrice it (Some cur) false /\ price_history d' = price_history d) /\
     (comps_of cur <> input_comps row ->
      exists p, res = ItemPrice it (Some p) true /\ valid_to p = None /\
        p_item_id p = i_id it /\ comps_of p = input_comps row /\
        price_history d' =
          (map (close_price (p_id cur) (clock d)) (price_history d) ++ [p])%list)
   end) /\
  (forall (row : item_input) (d : db),
   faults d = [] ->
   (length (item_price_current (i_id (resolved_item row d)) d) <= 1)%nat ->
   let '(_, _, _, d1) := insert_item row d in
   let '(ok2, _, res2, d2) := insert_item row d1 in
   ok2 = true /\ (exists it p, res2 = ItemPrice it p false) /\
   price_history d2 = price_history d1) /\
  (forall (row1 row2 : item_input) (d : db),
   faults d = [] -> same_triple row1 row2 ->
   versions_of (i_id (resolved_item row1 d)) d = [] ->
   let iid := i_id (resolved_item row1 d) in
   let '(_, _, _, d1) := insert_item row1 d in
   let '(_, _, res2, d2) := insert_item row2 d1 in
   (input_comps row1 <> input_comps row2 ->
    (exists it p, res2 = ItemPrice it p true) /\
    exists p1 p2, versions_of iid d2 = [p1; p2] /\
      comps_of p1 = input_comps row1 /\ valid_to p1 = Some (clock d) /\
      comps_of p2 = input_comps row2 /\ valid_to p2 = None) /\
   (input_comps row1 = input_comps row2 ->
    (exists it p, res2 = ItemPrice it p false) /\
    exists p1, versions_of iid d2 = [p1] /\
      comps_of p1 = input_comps row1 /\ valid_to p1 = None)).
Proof.
  split; [|split; [exact insert_item_idempotent | exact insert_item_two_calls]].
  intros row d Hf. cbn zeta.
  pose proof (insert_item_state row d Hf) as S.
  destruct (insert_item row d) as [[[ok msg] res] d'].
  destruct S as (Hok & _ & _ & _ & S). split; [exact Hok|].
  destruct (first _) as [cur|].
  - destruct S as [Seq Sne]. split; [exact Seq|].
    intros Hne; destruct (Sne Hne) as [-> ->].
    eexists; repeat split; cbn; rewrite ?Z.eqb_refl; reflexivity.
  - destruct S as [-> ->]. eexists; repeat split; reflexivity.
Qed.

(** ** A failed initial price insert after the item was created *)



(** ** The stock snapshot and the commit loop *)

Lemma dict_get_set {V} (k k' : string) (v : V) (m : pydict V) :
  dict_get k (dict_set k' v m) = if String.eqb k k' then Some v else dict_get k m.
Proof.
  induction m as [|[k0 v0] m IH]; cbn.
  - destruct (String.eqb k k'); reflexivity.
  - destruct (String.eqb k' k0) eqn:E1.
    + apply String.eqb_eq in E1; subst k0. cbn.
      destruct (String.eqb k k'); reflexivity.
    + cbn. destruct (String.eqb k k0) eqn:E2; [|exact IH].
      apply String.eqb_eq in E2; subst k0.
      destruct (String.eqb k k') eqn:E3; [|reflexivity].
      apply String.eqb_eq in E3; subst k'. rewrite String.eqb_refl in E1. discriminate.
Qed.

Lemma all_metas_set (P : pydict pyval -> Prop) k m r :
  all_metas P r -> P m -> all_metas P (dict_set k m r).
Proof.
  unfold all_metas; induction r as [|[k0 m0] r IH]; cbn; intros H Hm.
  - constructor; [exact Hm | constructor].
  - inversion H; subst. destruct (String.eqb k k0); constructor; cbn; auto.
Qed.

Lemma all_metas_get (P : pydict pyval -> Prop) k m r :
  all_metas P r -> dict_get k r = Some m -> P m.
Proof.
  unfold all_metas; induction r as [|[k0 m0] r IH]; cbn; intros H Hg; [discriminate|].
  inversion H; subst. destruct (String.eqb k k0); [injection Hg as <-; assumption|auto].
Qed.

Lemma meta_entry_no_item_id it size hj : no_item_id (meta_entry it size hj).
Proof. reflexivity. Qed.

Lemma add_quantity_no_item_id q m : no_item_id m -> no_item_id (add_quantity q m).
Proof.
  unfold no_item_id, add_quantity; intros H.
  destruct (dict_get "quantity" m) as [[]|]; try exact H.
  rewrite dict_get_set; exact H.
Qed.

Lemma group_stock_step1 key m r :
  all_metas no_item_id r -> no_item_id m ->
  all_metas no_item_id (match dict_get key r with
                        | Some _ => r
                        | None => dict_set key m r
                        end).
Proof.
  intros H Hm; destruct (dict_get key r); [exact H | apply all_metas_set; assumption].
Qed.

Lemma group_stock_step2 key q r :
  all_metas no_item_id r ->
  all_metas no_item_id (match dict_get key r with
                        | Some meta => dict_set key (add_quantity q meta) r
                        | None => r
                        end).
Proof.
  intros H; destruct (dict_get key r) as [meta|] eqn:E; [|exact H].
  apply all_metas_set; [exact H|]. apply add_quantity_no_item_id.
  exact (all_metas_get _ _ _ _ H E).
Qed.

Lemma group_stock_no_item_id prices rows result :
  all_metas no_item_id result -> all_metas no_item_id (group_stock prices rows result).
Proof.
  revert result; induction rows as [|row rows IH]; intros result H; cbn; [exact H|].
  destruct (q_item row) as [it|]; [|auto].
  apply IH, group_stock_step2, group_stock_step1; [exact H | apply meta_entry_no_item_id].
Qed.

Lemma get_items_in_stock_no_item_id stock_data price_data :
  all_metas no_item_id (get_items_in_stock stock_data price_data).
Proof.
  unfold get_items_in_stock. destruct stock_data; [constructor|].
  destruct (existsb _ _); [apply group_stock_no_item_id; constructor | constructor].
Qed.

Lemma dict_get_in {V} (k : string) (v : V) (m : pydict V) :
  In (k, v) m -> exists v', dict_get k m = Some v'.
Proof.
  induction m as [|[k0 v0] m IH]; cbn; [tauto|].
  intros [E|H].
  - injection E as -> ->. rewrite String.eqb_refl. eauto.
  - destruct (String.eqb k k0); eauto.
Qed.

Lemma sku_size_to_key_resolve items_in_stock :
  keys_resolve items_in_stock (sku_size_to_key items_in_stock).
Proof.
  unfold sku_size_to_key, keys_resolve.
  assert (G : forall l acc,
    incl l items_in_stock ->
    Forall (fun e => exists m, dict_get (snd e) items_in_stock = Some m) acc ->
    Forall (fun e => exists m, dict_get (snd e) items_in_stock = Some m)
      (fold_left (fun acc '(key, meta) =>
               let sku := match dict_get "sku" meta with Some v => v | None => PNone end in
               let size := match dict_get "size" meta with Some v => v | None => PNone end in
               app (filter (fun e => negb (pyval_eqb (fst (fst e)) sku
                                           && pyval_eqb (snd (fst e)) size)) acc)
                   [((sku, size), key)]) l acc)).
  { induction l as [|[k m] l IH]; intros acc Hl Hacc; cbn; [exact Hacc|].
    apply IH; [intros x Hx; apply Hl; right; exact Hx|].
    apply Forall_app; split.
    - apply Forall_forall; intros x Hx; apply filter_In in Hx.
      exact (proj1 (Forall_forall _ _) Hacc x (proj1 Hx)).
    - constructor; [|constructor]. cbn. apply (dict_get_in k m). apply Hl; left; reflexivity. }
  apply G; [intros x Hx; exact Hx | constructor].
Qed.

Lemma commit_loop_no_transfer items_in_stock keymap target session results order_rows d :
  all_metas no_item_id items_in_stock ->
  keys_resolve items_in_stock keymap ->
  let '(o, d') := commit_loop items_in_stock keymap target session results order_rows d in
  d' = d /\ (o = Collected results order_rows \/ o = Raised "KeyError: 'item_id'").
Proof.
  intros Hm Hk. induction session as [|sl rest IH]; cbn; [auto|].
  destruct (_ || _ || _); [exact IH|].
  destruct (pair_get _ _ keymap) as [key|] eqn:Ek; [|exact IH].
  assert (Hr : exists m, dict_get key items_in_stock = Some m).
  { clear IH. induction keymap as [|[[a b] k] keymap IHk]; cbn in Ek; [discriminate|].
    inversion Hk; subst.
    destruct (pyval_eqb a _ && pyval_eqb b _); [injection Ek as <-; assumption|auto]. }
  destruct Hr as [m Hg]. rewrite Hg.
  pose proof (all_metas_get _ _ _ _ Hm Hg) as Hn. unfold no_item_id in Hn. rewrite Hn.
  unfold ret; auto.
Qed.

(** ** The master-data validators *)































(** C4: the commit loop of the delivery-order page, run on any mapping
    built by [get_items_in_stock], never reaches [transfer_via_logs]: the
    store is left unchanged and the loop either collects nothing (no
    valid line) or stops with [KeyError: 'item_id'], because the meta
    dicts of [get_items_in_stock] have no ["item_id"] key. *)
Theorem commit_order_never_transfers stock_data price_data target session d :
  let '(o, d') := commit_order (get_items_in_stock stock_data price_data) target session d in
  d' = d /\ (o = Collected [] [] \/ o = Raised "KeyError: 'item_id'").
Proof.
  apply commit_loop_no_transfer;
    [apply get_items_in_stock_no_item_id | apply sku_size_to_key_resolve].
Qed.

(** ** Examples on concrete inputs *)

Lemma insert_stock_log_kind_and_sign_witness :
  insert_stock_log sample_out_input sample_db =
    (true, "Inserted stock log", Some sample_out_log, set_log sample_db [sample_out_log]) /\
  l_quantity sample_out_log = - Z.abs 5 /\ l_quantity sample_out_log < 0.
Proof.
  assert (E : insert_stock_log sample_out_input sample_db =
    (true, "Inserted stock log", Some sample_out_log, set_log sample_db [sample_out_log]))
    by reflexivity.
  split; [exact E|].
  destruct (insert_stock_log_kind_and_sign _ _ _ _ _ _ E) as (_ & _ & H).
  destruct (H eq_refl) as (mt & q & p & Hmt & _ & Hq & _ & Hp & _ & _ & Hout & _).
  injection Hmt as <-. injection Hq as <-. injection Hp as <-.
  apply Hout. left. reflexivity.
Defined.

Lemma insert_stock_log_size_default_witness :
  insert_stock_log sample_out_input sample_db =
    (true, "Inserted stock log", Some sample_out_log, set_log sample_db [sample_out_log]) /\
  In sample_out_log (item_stock_log (set_log sample_db [sample_out_log])) /\
  l_size sample_out_log = Some "OS".
Proof.
  assert (E : insert_stock_log sample_out_input sample_db =
    (true, "Inserted stock log", Some sample_out_log, set_log sample_db [sample_out_log]))
    by reflexivity.
  destruct (insert_stock_log_size_default _ _ _ _ _ E) as (Hin & Hnone & _).
  split; [exact E | split; [exact Hin | apply Hnone; reflexivity]].
Defined.

Lemma transfer_via_logs_contract_witness :
  0 < 5 /\
  fault_at (set_faults sample_db [false; true]) 0 = false /\
  fault_at (set_faults sample_db [false; true]) 1 = true /\
  let '(res, d') := transfer_via_logs 7 "M" 4 2 5 (set_faults sample_db [false; true]) in
  res = (false, "transfer_in failed after transfer_out: " ++ store_error) /\
  item_stock_log d' = [mk_log 7 4 (Some "M") "transfer_out" (-5)].
Proof.
  pose proof (transfer_via_logs_contract 7 "M" 4 2 5 (set_faults sample_db [false; true])) as H.
  split; [lia|]. split; [reflexivity|]. split; [reflexivity|].
  destruct (transfer_via_logs 7 "M" 4 2 5 (set_faults sample_db [false; true])) as [res d'].
  cbv beta iota zeta in H. destruct H as [_ H].
  destruct (H ltac:(lia)) as (_ & _ & H3 & _).
  destruct (H3 eq_refl eq_refl) as [-> ->].
  split; reflexivity.
Defined.


Lemma get_item_qty_stock_item_not_found_witness :
  fault_at sample_db 0 = false /\ lookup_items 1 2 3 sample_db = [] /\
  let '(ok, msg, qty, _) := get_item_qty_stock 1 2 3 4 "M" sample_db in
  (ok, msg, qty) = (true, "Item not found", 0).
Proof.
  pose proof (get_item_qty_stock_item_not_found 1 2 3 4 "M" sample_db) as H.
  split; [reflexivity|]. split; [reflexivity|].
  destruct (get_item_qty_stock 1 2 3 4 "M" sample_db) as [[[ok msg] qty] d'].
  destruct H as (H1 & _). exact (proj1 (H1 eq_refl eq_refl)).
Defined.

Lemma insert_item_price_versioning_witness :
  faults sample_db = [] /\ same_triple sample_row1 sample_row2 /\
  versions_of (i_id (resolved_item sample_row1 sample_db)) sample_db = [] /\
  input_comps sample_row1 <> input_comps sample_row2 /\
  (length (item_price_current (i_id (resolved_item sample_row1 sample_db)) sample_db) <= 1)%nat /\
  (let '(_, _, _, d1) := insert_item sample_row1 sample_db in
   let '(_, _, res2, d2) := insert_item sample_row2 d1 in
   exists p1 p2, versions_of 1 d2 = [p1; p2] /\
     valid_to p1 = Some 100 /\ valid_to p2 = None) /\
  (let '(_, _, _, d1) := insert_item sample_row1 sample_db in
   let '(ok2, _, _, d2) := insert_item sample_row1 d1 in
   ok2 = true /\ price_history d2 = price_history d1).
Proof.
  destruct insert_item_price_versioning as (_ & HB & HC).
  pose proof (HC sample_row1 sample_row2 sample_db eq_refl
                 (conj eq_refl (conj eq_refl eq_refl)) eq_refl) as C.
  pose proof (HB sample_row1 sample_db eq_refl ltac:(vm_compute; lia)) as B.
  split; [reflexivity|]. split; [exact (conj eq_refl (conj eq_refl eq_refl))|].
  split; [reflexivity|]. split; [discriminate|]. split; [vm_compute; lia|].
  split.
  - cbv zeta in C.
    destruct (insert_item sample_row1 sample_db) as [[[? ?] ?] d1].
    destruct (insert_item sample_row2 d1) as [[[? ?] res2] d2].
    destruct C as [C _]. destruct (C ltac:(discriminate)) as (_ & p1 & p2 & Hv & _ & Hp1 & _ & Hp2).
    exists p1, p2. split; [exact Hv | split; assumption].
  - destruct (insert_item sample_row1 sample_db) as [[[? ?] ?] d1].
    destruct (insert_item sample_row1 d1) as [[[ok2 ?] res2] d2].
    destruct B as (Hok & _ & Hp). split; assumption.
Defined.





(** The commit of one valid line over one warehouse stock row raises
    [KeyError: 'item_id'] and leaves the store unchanged. *)
Lemma commit_order_sample_raises :
  commit_order (get_items_in_stock sample_stock_rows [(1, PInt 50000)]) 2 sample_session sample_db
  = (Raised "KeyError: 'item_id'", sample_db).
Proof. reflexivity. Qed.

(* ------------------------------------------------------------------ *)
(** ** Further properties of the same modules *)

(** X1: whenever [insert_stock_log] reports failure, it returns no
    inserted row and has written nothing: the item, price, log and stock
    tables are as before. *)
Lemma insert_stock_log_failure_no_write (row : log_input) (d : db) msg ins d' :
  insert_stock_log row d = (false, msg, ins, d') ->
  ins = None /\ items d' = items d /\ price_history d' = price_history d /\
  item_stock_log d' = item_stock_log d /\ item_stock d' = item_stock d.
Proof.
  intros H. destruct row as [mt0 q0 iid c n k st sz]; unfold insert_stock_log in H.
  cbn [r_movement_type r_jumlah_barang r_item_id r_category_id r_item_name_id
       r_color_id r_store_id r_size] in *.
  destruct d as [its ph lg sk nid clk fs].
  crush_in H.
  all: try (injection H as <- <- <-; cbn; auto).
Qed.

(** X2: the missing-key errors of [insert_stock_log], in the order the
    code checks them: no movement type raises [KeyError('movement_type')];
    for a valid type, a missing [jumlah_barang]; for a non-zero quantity
    without [item_id], the first missing one of category, item name and
    colour; with an [item_id] but no [store_id], [KeyError('store_id')].
    The store is left as it was in each case. *)
Lemma insert_stock_log_missing_keys (row : log_input) (d : db) :
  (r_movement_type row = None ->
   insert_stock_log row d = (false, "'movement_type'", None, d)) /\
  (forall mt, r_movement_type row = Some mt -> In mt movement_types ->
   (r_jumlah_barang row = None ->
    insert_stock_log row d = (false, "Missing jumlah_barang", None, d)) /\
   (forall q, r_jumlah_barang row = Some q -> q <> 0 ->
    (r_item_id row = None -> r_category_id row = None ->
     insert_stock_log row d = (false, "Missing category_id to resolve item_id", None, d)) /\
    (r_item_id row = None -> r_category_id row <> None -> r_item_name_id row = None ->
     insert_stock_log row d = (false, "Missing item_name_id to resolve item_id", None, d)) /\
    (r_item_id row = None -> r_category_id row <> None -> r_item_name_id row <> None ->
     r_color_id row = None ->
     insert_stock_log row d = (false, "Missing color_id to resolve item_id", None, d)) /\
    (r_item_id row <> None -> r_store_id row = None ->
     insert_stock_log row d = (false, "'store_id'", None, d)))).
Proof.
  destruct row as [mt0 q0 iid c n k st sz]; unfold insert_stock_log;
  cbn [r_movement_type r_jumlah_barang r_item_id r_category_id r_item_name_id
       r_color_id r_store_id r_size].
  split; [intros ->; reflexivity|].
  intros mt -> Hin. rewrite <- str_in_In in Hin. rewrite Hin. cbn [negb].
  split; [intros ->; reflexivity|].
  intros q -> Hq. apply Z.eqb_neq in Hq. rewrite Hq.
  repeat split; intros; subst;
    repeat match goal with
           | H : ?x <> None |- _ => destruct x; [clear H | congruence]
           end; reflexivity.
Qed.

(** X3: for a valid non-zero movement without [item_id] but with the
    full attribute triple, [insert_stock_log] resolves the item through the
    first matching item row: with no match it fails with "Item not found
    ..." and logs nothing; with a match and a store, it appends exactly one
    log row for the first matching item, with the default size and the
    signed quantity. *)
Lemma insert_stock_log_resolves_item (row : log_input) (d : db) mt q c n k :
  r_movement_type row = Some mt -> In mt movement_types ->
  r_jumlah_barang row = Some q -> q <> 0 ->
  r_item_id row = None ->
  r_category_id row = Some c -> r_item_name_id row = Some n -> r_color_id row = Some k ->
  fault_at d 0 = false ->
  (lookup_items c n k d = [] ->
   let '(ok, msg, ins, d') := insert_stock_log row d in
   ok = false /\ msg = "Item not found for given category_id/item_name_id/color_id" /\
   ins = None /\ item_stock_log d' = item_stock_log d) /\
  (forall it rest st, lookup_items c n k d = it :: rest -> r_store_id row = Some st ->
   fault_at d 1 = false ->
   let p := mk_log (i_id it) st (size_or_default (r_size row)) mt (enforce_sign mt q) in
   let '(ok, msg, ins, d') := insert_stock_log row d in
   ok = true /\ ins = Some p /\ item_stock_log d' = (item_stock_log d ++ [p])%list).
Proof.
  intros Hmt Hin Hq Hq0 Hiid Hc Hn Hk Hf0.
  rewrite <- str_in_In in Hin. apply Z.eqb_neq in Hq0.
  unfold insert_stock_log; rewrite Hmt, Hin, Hq, Hq0, Hiid, Hc, Hn, Hk; cbn [negb].
  unfold fault_at in *.
  assert (Hsf : forall d0 fs0, lookup_items c n k (set_faults d0 fs0) = lookup_items c n k d0)
    by reflexivity.
  split.
  - intros Hl. unfold bind, select, execute.
    destruct (faults d) as [|[|] fs] eqn:Ef; cbn in Hf0; try discriminate;
      cbn -[lookup_items set_faults]; rewrite ?Hsf, Hl; cbn; auto.
  - intros it rest st Hl Hst Hf1. unfold bind, select, execute.
    destruct (faults d) as [|[|] [|[|] fs]] eqn:Ef; cbn in Hf0, Hf1; try discriminate;
      cbn -[lookup_items set_faults]; rewrite ?Hsf, Hl; cbn; rewrite Hst; cbn; rewrite ?Ef; cbn; auto.
Qed.

Ltac step_match :=
  match goal with
  | |- context [match ?x with _ => _ end] =>
      lazymatch x with
      | context [match _ with _ => _ end] => fail
      | _ => destruct x eqn:?
      end
  end.

(** X4: [insert_item] never changes or removes an existing item row,
    whatever the store answers: the item table is unchanged, or, when no
    item has the triple, exactly one new item with the next id, the triple
    and the created year is appended. *)
Lemma insert_item_items (row : item_input) (d : db) :
  let c := ii_category_id row in
  let n := ii_item_name_id row in
  let k := ii_color_id row in
  let '(_, _, _, d') := insert_item row d in
  items d' = items d \/
  (lookup_items c n k d = [] /\
   items d' = (items d ++ [mk_item (next_id d) c n k (ii_created_year row)])%list).
Proof.
  destruct d as [its ph lg sk nid clk fs].
  unfold insert_item, bind, ret, select, execute.
  repeat (cbn -[lookup_items item_price_current same_price]; try step_match).
  all: unfold lookup_items in *; cbn [items] in *.
  all: first [left; reflexivity
             | right; split; [apply first_none_nil; assumption | reflexivity]].
Qed.

(** X5: after a successful [insert_item] (a store that answers every
    call, at most one current price), [get_item_cost] on the same triple
    returns the four cost components just given. *)
Lemma insert_item_then_get_item_cost (row : item_input) (d : db) :
  faults d = [] ->
  (length (item_price_current (i_id (resolved_item row d)) d) <= 1)%nat ->
  fst (get_item_cost (ii_category_id row) (ii_item_name_id row) (ii_color_id row)
                     (snd (insert_item row d))) = Returns (Some (input_comps row)).
Proof.
  intros Hf Hlen.
  destruct (open_version_after_insert_item row d Hf Hlen) as (cur & Hc & Hcomps).
  pose proof (lookup_after_insert_item row d Hf) as Hl.
  pose proof (insert_item_state row d Hf) as Hs.
  destruct (insert_item row d) as [[[ok msg] res] d'].
  destruct Hs as (_ & _ & Hf' & _). cbn [snd] in *.
  unfold get_item_cost, bind, ret, select, execute. rewrite Hf'.
  rewrite Hl. rewrite Hf'. rewrite Hc. cbn [fst].
  unfold comps_of, input_comps in *. rewrite <- Hcomps. reflexivity.
Qed.

(** X6: after [insert_item] with a store that answers every call, the
    result carries the item and its price, and [get_item_id_from_attrs] on
    the same triple returns [(True, "OK", id)] of that item. *)
Lemma insert_item_then_get_item_id (row : item_input) (d : db) :
  faults d = [] ->
  let it := resolved_item row d in
  let '(_, _, res, d') := insert_item row d in
  (exists p ch, res = ItemPrice it p ch) /\
  fst (get_item_id_from_attrs (ii_category_id row) (ii_item_name_id row) (ii_color_id row) d')
  = (true, "OK", Some (i_id it)).
Proof.
  intros Hf.
  pose proof (lookup_after_insert_item row d Hf) as Hl.
  pose proof (insert_item_state row d Hf) as Hs. cbn zeta in Hs |- *.
  destruct (insert_item row d) as [[[ok msg] res] d'].
  destruct Hs as (_ & _ & Hf' & _ & Hres). cbn [snd] in Hl.
  split.
  - destruct (first (item_price_current (i_id (resolved_item row d)) d)) as [cur|].
    + destruct (same_price cur row) eqn:Es.
      * apply same_price_iff in Es. destruct Hres as [H _]. destruct (H Es) as [-> _]. eauto.
      * assert (Hne : comps_of cur <> input_comps row)
          by (rewrite <- same_price_iff; congruence).
        destruct Hres as [_ H]. destruct (H Hne) as [-> _]. eauto.
    + destruct Hres as [-> _]. eauto.
  - unfold get_item_id_from_attrs, bind, ret, select, execute. rewrite Hf', Hl. reflexivity.
Qed.

(** X7: [get_item_qty_stock] by attributes agrees with
    [get_item_id_from_attrs] followed by [get_item_qty_stock_by_item_id]
    when an item id is found, and reports a quantity of 0 when none is. *)
Lemma get_item_qty_stock_via_item_id (c n k st : Z) (sz : string) (d : db) :
  (forall ok msg iid d1,
   get_item_id_from_attrs c n k d = (ok, msg, Some iid, d1) ->
   get_item_qty_stock c n k st sz d = get_item_qty_stock_by_item_id iid st sz d1) /\
  (forall ok msg d1,
   get_item_id_from_attrs c n k d = (ok, msg, None, d1) ->
   exists ok' msg', get_item_qty_stock c n k st sz d = (ok', msg', 0, d1)).
Proof.
  unfold get_item_id_from_attrs, get_item_qty_stock, get_item_qty_stock_by_item_id,
    bind, ret, select, execute.
  destruct (faults d) as [|[|] fs];
    [destruct (first (lookup_items c n k d)) eqn:E
    |
    |destruct (first (lookup_items c n k (set_faults d fs))) eqn:E];
    cbn -[lookup_items]; split; intros; try discriminate;
    match goal with H : (_, _, _, _) = _ |- _ => injection H; intros; subst end;
    eauto.
Qed.

(** X8: when [insert_item] changes the price of an existing item and the
    insert of the new price version fails after the old one was closed, it
    returns [ok = false] with the store's error text and no data, keeps
    the item table, has closed the old version (its [valid_to] set to
    now), and the item is left with no current price. *)
Lemma insert_item_close_then_insert_fails (row : item_input) (d : db) it cur :
  first (lookup_items (ii_category_id row) (ii_item_name_id row) (ii_color_id row) d) = Some it ->
  item_price_current (i_id it) d = [cur] ->
  comps_of cur <> input_comps row ->
  faults d = [false; false; false; true] ->
  let '(ok, msg, res, d') := insert_item row d in
  ok = false /\ msg = store_error /\ res = NoData /\
  items d' = items d /\
  price_history d' = map (close_price (p_id cur) (clock d)) (price_history d) /\
  item_price_current (i_id it) d' = [].
Proof.
  intros Hl Hc Hne Hf.
  assert (Hs : same_price cur row = false)
    by (apply not_true_is_false; rewrite same_price_iff; exact Hne).
  assert (Hopen : item_price_current (i_id it)
                    (set_prices d (map (close_price (p_id cur) (clock d)) (price_history d))
                                (next_id d)) = []).
  { unfold item_price_current in *; cbn [price_history set_prices].
    rewrite open_versions_after_close, Hc. cbn. rewrite Z.eqb_refl. reflexivity. }
  destruct d as [its ph lg sk nid clk fs]; cbn [faults] in Hf; subst fs.
  unfold insert_item, bind, ret, select, execute.
  unfold lookup_items, item_price_current in *; cbn [items price_history] in *.
  cbn -[first filter same_price item_matches].
  rewrite Hl. cbn -[first filter same_price item_matches]. rewrite Hc.
  cbn -[filter same_price item_matches]. rewrite Hs.
  cbn -[filter]. repeat split. exact Hopen.
Qed.

Lemma sum_Z_app (a b : list Z) : sum_Z (a ++ b) = sum_Z a + sum_Z b.
Proof. induction a as [|x a IH]; cbn; [reflexivity|]. unfold sum_Z in *. rewrite IH. lia. Qed.

Lemma key_total_app k a b : key_total k (a ++ b) = key_total k a + key_total k b.
Proof. unfold key_total. rewrite filter_app, map_app, sum_Z_app. reflexivity. Qed.

Lemma key_total_none k pre : Forall (fun r => has_key k r = false) pre -> key_total k pre = 0.
Proof.
  induction 1 as [|r pre Hr _ IH]; [reflexivity|].
  unfold key_total in *; cbn. rewrite Hr. exact IH.
Qed.

Lemma key_total_one k r : key_total k [r] = if has_key k r then q_quantity r else 0.
Proof. unfold key_total; cbn. destruct (has_key k r); cbn; lia. Qed.

Lemma dict_set_set {V} k (v v' : V) m : dict_set k v (dict_set k v' m) = dict_set k v m.
Proof.
  induction m as [|[k0 v0] m IH]; cbn.
  - rewrite String.eqb_refl. reflexivity.
  - destruct (String.eqb k k0) eqn:E; cbn; rewrite E; [reflexivity|]. rewrite IH. reflexivity.
Qed.

Lemma dict_keys_set {V} k (v : V) m :
  map fst (dict_set k v m) =
  match dict_get k m with Some _ => map fst m | None => (map fst m ++ [k])%list end.
Proof.
  induction m as [|[k0 v0] m IH]; cbn; [reflexivity|].
  destruct (String.eqb k k0) eqn:E; cbn.
  - apply String.eqb_eq in E; subst. reflexivity.
  - rewrite IH. destruct (dict_get k m); reflexivity.
Qed.

Lemma dict_get_none {V} k (m : pydict V) : dict_get k m = None <-> ~ In k (map fst m).
Proof.
  induction m as [|[k0 v0] m IH]; cbn; [tauto|].
  destruct (String.eqb k k0) eqn:E.
  - apply String.eqb_eq in E; subst. split; [discriminate | tauto].
  - apply String.eqb_neq in E. rewrite IH. split; [intros H [H'|H']; congruence | tauto].
Qed.

Lemma group_step_get key m_new q result k :
  dict_get k (group_step key m_new q result) =
  if String.eqb k key
  then Some (add_quantity q (match dict_get key result with Some m => m | None => m_new end))
  else dict_get k result.
Proof.
  unfold group_step.
  destruct (dict_get key result) as [m|] eqn:E.
  - rewrite E, dict_get_set. reflexivity.
  - rewrite dict_get_set, String.eqb_refl, dict_set_set, dict_get_set. reflexivity.
Qed.

Lemma group_step_keys key m_new q result :
  map fst (group_step key m_new q result) =
  match dict_get key result with Some _ => map fst result | None => (map fst result ++ [key])%list end.
Proof.
  unfold group_step.
  destruct (dict_get key result) as [m|] eqn:E.
  - rewrite E, dict_keys_set, E. reflexivity.
  - rewrite dict_get_set, String.eqb_refl, dict_keys_set, dict_get_set, String.eqb_refl,
      dict_keys_set, E. reflexivity.
Qed.

Lemma add_quantity_set q x e :
  add_quantity q (dict_set "quantity" (PInt x) e) = dict_set "quantity" (PInt (x + q)) e.
Proof. unfold add_quantity. rewrite dict_get_set. cbn. apply dict_set_set. Qed.

Lemma grouped_step prices pre result row :
  grouped prices pre result ->
  grouped prices (pre ++ [row])%list
    (match q_item row with
     | None => result
     | Some it => group_step (j_sku it ++ "|" ++ q_size row)
                    (meta_entry it (q_size row) (price_get (j_id it) prices))
                    (q_quantity row) result
     end).
Proof.
  intros [Hnd Hg].
  destruct (q_item row) as [it|] eqn:Hit.
  - set (K := j_sku it ++ "|" ++ q_size row).
    assert (Hk : stock_key row = Some K) by (unfold stock_key; rewrite Hit; reflexivity).
    split.
    + rewrite group_step_keys. destruct (dict_get K result) eqn:E; [exact Hnd|].
      apply dict_get_none in E. apply NoDup_app; [exact Hnd | constructor; [tauto|constructor] |].
      intros x Hx [<-|[]]. exact (E Hx).
    + intros k. rewrite group_step_get.
      destruct (String.eqb k K) eqn:EK.
      * apply String.eqb_eq in EK; subst k.
        rewrite key_total_app, key_total_one.
        assert (Hhk : has_key K row = true)
          by (unfold has_key; rewrite Hk; apply String.eqb_refl).
        rewrite Hhk.
        specialize (Hg K). destruct (dict_get K result) as [m|] eqn:E.
        -- destruct Hg as (pre1 & r & post1 & it1 & -> & Hr & Hrk & Hpre & ->).
           exists pre1, r, (post1 ++ [row])%list, it1.
           rewrite add_quantity_set. rewrite <- app_assoc. auto.
        -- exists pre, row, [], it.
           rewrite key_total_none by exact Hg.
           change (meta_entry it (q_size row) (price_get (j_id it) prices)) with
             (dict_set "quantity" (PInt 0) (meta_entry it (q_size row) (price_get (j_id it) prices))).
           rewrite add_quantity_set. auto.
      * assert (Hh : has_key k row = false)
          by (unfold has_key; rewrite Hk; rewrite String.eqb_sym; exact EK).
        specialize (Hg k). destruct (dict_get k result) as [m|].
        -- destruct Hg as (pre1 & r & post1 & it1 & -> & Hr & Hrk & Hpre & ->).
           exists pre1, r, (post1 ++ [row])%list, it1.
           rewrite (key_total_app k (pre1 ++ r :: post1) [row]), key_total_one, Hh, Z.add_0_r,
             <- app_assoc. auto.
        -- apply Forall_app; split; [exact Hg | constructor; [exact Hh | constructor]].
  - assert (Hh : forall k, has_key k row = false)
      by (intros k; unfold has_key, stock_key; rewrite Hit; reflexivity).
    split; [exact Hnd|]. intros k. specialize (Hg k).
    destruct (dict_get k result) as [m|].
    + destruct Hg as (pre1 & r & post1 & it1 & -> & Hr & Hrk & Hpre & ->).
      exists pre1, r, (post1 ++ [row])%list, it1.
      rewrite (key_total_app k (pre1 ++ r :: post1) [row]), key_total_one, Hh, Z.add_0_r,
             <- app_assoc. auto.
    + apply Forall_app; split; [exact Hg | constructor; [apply Hh | constructor]].
Qed.

Lemma group_stock_grouped prices rows : forall pre result,
  grouped prices pre result -> grouped prices (pre ++ rows)%list (group_stock prices rows result).
Proof.
  induction rows as [|row rows IH]; intros pre result H; cbn.
  - rewrite app_nil_r. exact H.
  - replace (pre ++ row :: rows)%list with ((pre ++ [row]) ++ rows)%list
      by (rewrite <- app_assoc; reflexivity).
    pose proof (grouped_step prices pre result row H) as H1.
    destruct (q_item row) as [it|]; apply IH; exact H1.
Qed.

Lemma get_items_in_stock_grouped rows prices :
  grouped prices rows (get_items_in_stock rows prices).
Proof.
  unfold get_items_in_stock. destruct rows as [|r0 rs] eqn:Er.
  - split; [constructor | intros k; constructor].
  - rewrite <- Er. destruct (existsb _ _) eqn:Ex.
    + apply (group_stock_grouped prices rows [] []).
      split; [constructor | intros k; constructor].
    + split; [constructor|]. intros k. cbn.
      apply Forall_forall. intros r Hr.
      unfold has_key, stock_key. destruct (q_item r) eqn:Hq; [|reflexivity].
      assert (Hx : existsb (fun r => match q_item r with Some _ => true | None => false end)
                     rows = true) by (apply existsb_exists; exists r; rewrite Hq; auto).
      rewrite Er in Hx. congruence.
Qed.


(** X9: the keys of [get_items_in_stock] are distinct, and a key is
    present exactly when some stock row with a joined item has that
    ["<sku>|<size>"]; rows without an item are skipped. *)
Lemma get_items_in_stock_keys (rows : list stock_query_row) (prices : list (Z * pyval)) :
  let r := get_items_in_stock rows prices in
  NoDup (map fst r) /\
  forall k, dict_get k r <> None <-> exists row, In row rows /\ stock_key row = Some k.
Proof.
  destruct (get_items_in_stock_grouped rows prices) as [Hnd Hg]. split; [exact Hnd|].
  intros k. specialize (Hg k). destruct (dict_get k _) as [m|].
  - destruct Hg as (pre1 & r & post1 & it & -> & _ & Hk & _ & _).
    split; [intros _ | congruence]. exists r. split; [|exact Hk].
    apply in_or_app; right; left; reflexivity.
  - split; [congruence|]. intros (row & Hin & Hk).
    rewrite Forall_forall in Hg. specialize (Hg row Hin).
    unfold has_key in Hg. rewrite Hk, String.eqb_refl in Hg. discriminate.
Qed.

(** X10: each entry of [get_items_in_stock] is the meta of the first
    stock row with its key (name, category, colour, sku, size, price of
    that row's item) and its quantity is the sum of the quantities of all
    rows with that key. *)
Lemma get_items_in_stock_meta (rows : list stock_query_row) (prices : list (Z * pyval)) k m :
  dict_get k (get_items_in_stock rows prices) = Some m ->
  exists pre row post it,
    rows = (pre ++ row :: post)%list /\ q_item row = Some it /\
    k = j_sku it ++ "|" ++ q_size row /\
    Forall (fun r => has_key k r = false) pre /\
    m = dict_set "quantity" (PInt (key_total k rows))
                 (meta_entry it (q_size row) (price_get (j_id it) prices)).
Proof.
  intros Hm. destruct (get_items_in_stock_grouped rows prices) as [_ Hg].
  specialize (Hg k). rewrite Hm in Hg.
  destruct Hg as (pre1 & r & post1 & it & Hrows & Hr & Hk & Hpre & Hmeta).
  exists pre1, r, post1, it. unfold stock_key in Hk. rewrite Hr in Hk.
  injection Hk as Hk. auto.
Qed.

Lemma pyval_eqb_eq a b : pyval_eqb a b = true <-> a = b.
Proof.
  destruct a, b; cbn; split; intros H; try discriminate; try congruence.
  - apply Z.eqb_eq in H; congruence.
  - injection H as ->; apply Z.eqb_refl.
  - apply String.eqb_eq in H; congruence.
  - injection H as ->; apply String.eqb_refl.
Qed.

Lemma keymap_sound (l : pydict (pydict pyval)) : forall acc e,
  In e (fold_left keymap_step l acc) ->
  In e acc \/ exists m, In (snd e, m) l /\
    fst e = (dict_get_default "sku" PNone m, dict_get_default "size" PNone m).
Proof.
  induction l as [|[k m] l IH]; intros acc e H; cbn in H; [auto|].
  destruct (IH _ _ H) as [H1 | (m' & Hm' & He)].
  - apply in_app_or in H1. destruct H1 as [H1 | [<- | []]].
    + apply filter_In in H1. left; exact (proj1 H1).
    + right. exists m. split; [left; reflexivity | reflexivity].
  - right. exists m'. split; [right; exact Hm' | exact He].
Qed.

Lemma keymap_complete (l : pydict (pydict pyval)) : forall acc p,
  (exists e, In e acc /\ fst e = p) \/
  (exists k m, In (k, m) l /\ (dict_get_default "sku" PNone m, dict_get_default "size" PNone m) = p) ->
  exists e, In e (fold_left keymap_step l acc) /\ fst e = p.
Proof.
  induction l as [|[k m] l IH]; intros acc p H; cbn.
  - destruct H as [H | (k & m & [] & _)]. exact H.
  - apply IH.
    set (sku := match dict_get "sku" m with Some v => v | None => PNone end).
    set (size := match dict_get "size" m with Some v => v | None => PNone end).
    destruct (pyval_eqb (fst p) sku && pyval_eqb (snd p) size) eqn:Ep.
    + left. exists ((sku, size), k). split; [apply in_or_app; right; left; reflexivity|].
      apply andb_prop in Ep. destruct Ep as [E1 E2].
      apply pyval_eqb_eq in E1, E2. destruct p; cbn in *; subst; reflexivity.
    + destruct H as [(e & He & Hp) | (k' & m' & [E | Hin] & Hp)].
      * left. exists e. split; [|exact Hp]. apply in_or_app; left. apply filter_In.
        split; [exact He|]. rewrite Hp, Ep. reflexivity.
      * injection E as <- <-. left. exists ((sku, size), k). split.
        -- apply in_or_app; right; left; reflexivity.
        -- exact Hp.
      * right. exists k', m'. auto.
Qed.

Lemma pair_get_some a b m k :
  pair_get a b m = Some k -> exists e, In e m /\ fst e = (a, b) /\ snd e = k.
Proof.
  induction m as [|[[x y] key] m IH]; cbn; [discriminate|].
  destruct (pyval_eqb x a && pyval_eqb y b) eqn:E.
  - intros H; injection H as <-. apply andb_prop in E; destruct E as [E1 E2].
    apply pyval_eqb_eq in E1, E2; subst. exists ((a, b), key). auto.
  - intros H. destruct (IH H) as (e & He & H1 & H2). exists e. auto.
Qed.

Lemma pair_get_in a b m e : In e m -> fst e = (a, b) -> pair_get a b m <> None.
Proof.
  induction m as [|[[x y] key] m IH]; cbn; [tauto|].
  intros [<- | He] Hp.
  - cbn in Hp. injection Hp as -> ->. rewrite !(proj2 (pyval_eqb_eq _ _) eq_refl). discriminate.
  - destruct (pyval_eqb x a && pyval_eqb y b); [discriminate | exact (IH He Hp)].
Qed.

Lemma dict_get_In {V} k (v : V) m : dict_get k m = Some v -> In (k, v) m.
Proof.
  induction m as [|[k0 v0] m IH]; cbn; [discriminate|].
  destruct (String.eqb k k0) eqn:E.
  - intros H; injection H as <-. apply String.eqb_eq in E; subst. left; reflexivity.
  - intros H; right; exact (IH H).
Qed.

Lemma In_dict_get {V} k (v : V) m : NoDup (map fst m) -> In (k, v) m -> dict_get k m = Some v.
Proof.
  induction m as [|[k0 v0] m IH]; cbn; [tauto|].
  intros Hnd [E | H]; inversion Hnd as [|? ? Hnot Hnd']; subst.
  - injection E as -> ->. rewrite String.eqb_refl. reflexivity.
  - destruct (String.eqb k k0) eqn:E.
    + apply String.eqb_eq in E; subst. exfalso. apply Hnot.
      change k0 with (fst (k0, v)). apply in_map. exact H.
    + exact (IH Hnd' H).
Qed.

(** X11: the delivery-order page's [sku_size_to_key] map sends the sku
    and size of every entry of [get_items_in_stock] back to the entry's
    key. *)
Lemma sku_size_to_key_roundtrip (rows : list stock_query_row) (prices : list (Z * pyval)) k m :
  dict_get k (get_items_in_stock rows prices) = Some m ->
  pair_get (dict_get_default "sku" PNone m) (dict_get_default "size" PNone m)
           (sku_size_to_key (get_items_in_stock rows prices)) = Some k.
Proof.
  intros Hm.
  destruct (get_items_in_stock_grouped rows prices) as [Hnd Hg].
  set (r := get_items_in_stock rows prices) in *.
  assert (Hfields : forall k m, dict_get k r = Some m ->
            exists s z, dict_get_default "sku" PNone m = PStr s /\
                        dict_get_default "size" PNone m = PStr z /\ k = s ++ "|" ++ z).
  { intros k0 m0 H0. specialize (Hg k0). rewrite H0 in Hg.
    destruct Hg as (pre1 & r0 & post1 & it & _ & Hr & Hk & _ & ->).
    unfold stock_key in Hk. rewrite Hr in Hk. injection Hk as <-.
    exists (j_sku it), (q_size r0). auto. }
  change (sku_size_to_key r) with (fold_left keymap_step r []).
  destruct (pair_get _ _ (fold_left keymap_step r [])) as [k'|] eqn:Hp.
  - apply pair_get_some in Hp. destruct Hp as (e & He & Hfst & Hsnd).
    destruct (keymap_sound r [] e He) as [[] | (m' & Hin & Hf')].
    rewrite Hsnd in Hin. apply (In_dict_get _ _ _ Hnd) in Hin.
    destruct (Hfields _ _ Hm) as (s & z & Hs & Hz & ->).
    destruct (Hfields _ _ Hin) as (s' & z' & Hs' & Hz' & ->).
    rewrite Hfst, Hs, Hz, Hs', Hz' in Hf'. injection Hf' as -> ->. reflexivity.
  - exfalso.
    destruct (keymap_complete r []
                (dict_get_default "sku" PNone m, dict_get_default "size" PNone m))
      as (e & He & Hfst).
    { right. exists k, m. split; [apply dict_get_In; exact Hm | reflexivity]. }
    exact (pair_get_in _ _ _ e He Hfst Hp).
Qed.

Lemma build_lines_closed (rows : list order_row) : forall idx acc g,
  fst (build_lines idx rows acc g) =
  (acc ++ map line_of (filter (fun ir => 0 <? o_quantity (snd ir)) (enumerate idx rows)))%list.
Proof.
  induction rows as [|row rest IH]; intros idx acc g; cbn.
  - rewrite app_nil_r. reflexivity.
  - destruct (o_quantity row <=? 0) eqn:Hq.
    + assert (Hf : (0 <? o_quantity row) = false) by (apply Z.ltb_ge; apply Z.leb_le; exact Hq).
      rewrite Hf. apply IH.
    + assert (Hf : (0 <? o_quantity row) = true) by (apply Z.ltb_lt; apply Z.leb_gt; exact Hq).
      rewrite Hf, IH. cbn [map]. rewrite <- app_assoc. reflexivity.
Qed.

(** X12: [build_delivery_order_from_rows] keeps exactly the rows with a
    positive quantity, in order; each line's [index] is the row's 1-based
    position among all the rows (skipped rows included), its label is
    ["T005-<category>-<item>"] and its size is the row's size or ["-"]. *)
Lemma build_delivery_order_positions (outlet : string) (rows : list order_row) :
  map (fun l => (dl_index l, dl_label l, dl_size l))
      (lines (build_delivery_order_from_rows outlet rows)) =
  map (fun ir => (fst ir, "T005-" ++ o_category (snd ir) ++ "-" ++ o_item (snd ir),
                  py_or_str (o_size (snd ir)) "-"))
      (filter (fun ir => 0 <? o_quantity (snd ir)) (enumerate 1 rows)).
Proof.
  unfold build_delivery_order_from_rows.
  pose proof (build_lines_closed rows 1 [] 0) as H.
  destruct (build_lines 1 rows [] 0) as [ls g]. cbn in H |- *. subst ls.
  rewrite map_map. apply map_ext. intros [i r]. reflexivity.
Qed.

Lemma fold_repeat_app {A} (x : A) (l : list nat) (acc : list A) :
  fold_left (fun result _ => app result [x]) l acc = (acc ++ repeat x (length l))%list.
Proof.
  revert acc; induction l as [|y l IH]; intros acc; cbn; [rewrite app_nil_r; reflexivity|].
  rewrite IH, <- app_assoc. reflexivity.
Qed.

Lemma expand_lines_flat (o : delivery_order) :
  expand_lines_for_barcode o =
  flat_map (fun line => repeat (mk_barcode_entry (dl_label line) (dl_sku line)
                                                 [Rupiah (dl_unit_price line)])
                               (Z.to_nat (dl_qty line))) (lines o).
Proof.
  unfold expand_lines_for_barcode.
  assert (G : forall ls acc,
    fold_left (fun result line =>
               fold_left (fun result _ =>
                            app result [mk_barcode_entry (dl_label line) (dl_sku line)
                                                         [Rupiah (dl_unit_price line)]])
                         (seq 0 (Z.to_nat (dl_qty line))) result) ls acc =
    (acc ++ flat_map (fun line => repeat (mk_barcode_entry (dl_label line) (dl_sku line)
                                                 [Rupiah (dl_unit_price line)])
                               (Z.to_nat (dl_qty line))) ls)%list).
  { induction ls as [|l ls IH]; intros acc; cbn [fold_left flat_map].
    - rewrite app_nil_r. reflexivity.
    - rewrite fold_repeat_app, IH, length_seq, <- app_assoc. reflexivity. }
  apply G.
Qed.

Lemma length_flat_repeat {A B} (f : A -> B) (q : A -> Z) (l : list A) :
  Z.of_nat (length (flat_map (fun x => repeat (f x) (Z.to_nat (q x))) l)) =
  sum_Z (map (fun x => Z.max 0 (q x)) l).
Proof.
  induction l as [|x l IH]; cbn; [reflexivity|].
  rewrite length_app, repeat_length, Nat2Z.inj_add, IH. unfold sum_Z; cbn. lia.
Qed.

(** X13: [_expand_lines_for_barcode] of a built delivery order has one
    entry per unit of every kept row, in order, and as many entries as the
    sum of the positive quantities. *)
Lemma expand_lines_for_barcode_units (outlet : string) (rows : list order_row) :
  let entries := expand_lines_for_barcode (build_delivery_order_from_rows outlet rows) in
  entries =
  flat_map (fun r => repeat (mk_barcode_entry ("T005-" ++ o_category r ++ "-" ++ o_item r)
                                              (o_sku r) [Rupiah (o_unit_price r)])
                            (Z.to_nat (o_quantity r))) rows /\
  Z.of_nat (length entries) = sum_Z (map (fun r => Z.max 0 (o_quantity r)) rows).
Proof.
  assert (H : expand_lines_for_barcode (build_delivery_order_from_rows outlet rows) =
    flat_map (fun r => repeat (mk_barcode_entry ("T005-" ++ o_category r ++ "-" ++ o_item r)
                                                (o_sku r) [Rupiah (o_unit_price r)])
                              (Z.to_nat (o_quantity r))) rows).
  { rewrite expand_lines_flat. unfold build_delivery_order_from_rows.
    pose proof (build_lines_closed rows 1 [] 0) as H.
    destruct (build_lines 1 rows [] 0) as [ls g]. cbn in H |- *. subst ls.
    generalize 1. induction rows as [|r rows IH]; intros i; cbn; [reflexivity|].
    destruct (0 <? o_quantity r) eqn:Hq; cbn.
    - rewrite py_or_int_zero, IH. reflexivity.
    - rewrite IH. apply Z.ltb_ge in Hq. destruct (o_quantity r); cbn; try reflexivity; lia. }
  cbn zeta. rewrite H. split; [reflexivity|]. apply length_flat_repeat.
Qed.

Lemma doc_key_eqb_eq a b : doc_key_eqb a b = true <-> a = b.
Proof.
  destruct a, b; cbn; split; intros H; try discriminate; try congruence.
  - apply andb_prop in H. destruct H as [H1 H2].
    apply String.eqb_eq in H1. apply Z.eqb_eq in H2. congruence.
  - injection H as -> ->. rewrite String.eqb_refl, Z.eqb_refl. reflexivity.
Qed.

Lemma key_get_set k k' v m :
  key_get k (key_set k' v m) = if doc_key_eqb k k' then Some v else key_get k m.
Proof.
  induction m as [|[k0 v0] m IH]; cbn.
  - destruct (doc_key_eqb k k'); reflexivity.
  - destruct (doc_key_eqb k' k0) eqn:E1.
    + apply doc_key_eqb_eq in E1; subst k0. cbn.
      destruct (doc_key_eqb k k'); reflexivity.
    + cbn. destruct (doc_key_eqb k k0) eqn:E2; [|exact IH].
      apply doc_key_eqb_eq in E2; subst k0.
      destruct (doc_key_eqb k k') eqn:E3; [|reflexivity].
      apply doc_key_eqb_eq in E3; subst k'.
      rewrite (proj2 (doc_key_eqb_eq k k) eq_refl) in E1. discriminate.
Qed.

Lemma key_get_app k (a b : doc_mapping) :
  key_get k (a ++ b)%list = match key_get k a with Some v => Some v | None => key_get k b end.
Proof.
  induction a as [|[k0 v0] a IH]; cbn; [reflexivity|].
  destruct (doc_key_eqb k k0); [reflexivity | exact IH].
Qed.

Lemma key_get_fold k kvs : forall m,
  key_get k (fold_left (fun m kv => key_set (fst kv) (snd kv) m) kvs m) =
  match key_get k (rev kvs) with Some v => Some v | None => key_get k m end.
Proof.
  induction kvs as [|[k0 v0] kvs IH]; intros m; cbn [fold_left rev]; [reflexivity|].
  rewrite IH, key_get_app, key_get_set. cbn [fst snd key_get].
  destruct (key_get k (rev kvs)); [reflexivity|].
  destruct (doc_key_eqb k k0); reflexivity.
Qed.

Lemma fold_flatten {A} (F : doc_mapping -> A -> doc_mapping) (h : A -> doc_mapping) :
  (forall m x, F m x = fold_left (fun m kv => key_set (fst kv) (snd kv) m) (h x) m) ->
  forall l m, fold_left F l m =
              fold_left (fun m kv => key_set (fst kv) (snd kv) m) (flat_map h l) m.
Proof.
  intros HF l. induction l as [|x l IH]; intros m; cbn; [reflexivity|].
  rewrite IH, fold_left_app, HF. reflexivity.
Qed.

Lemma fold_map_keys {A} (f : A -> doc_key * list piece) (l : list A) m :
  fold_left (fun m x => key_set (fst (f x)) (snd (f x)) m) l m =
  fold_left (fun m kv => key_set (fst kv) (snd kv) m) (map f l) m.
Proof. revert m; induction l as [|x l IH]; intros m; cbn; [reflexivity | apply IH]. Qed.

Lemma key_get_indexed (h : Z -> doc_mapping) p i (l : list Z) :
  (forall j kv, In kv (h j) -> exists q, fst kv = KSlot q j) ->
  key_get (KSlot p i) (rev (flat_map h l)) =
  if existsb (Z.eqb i) l then key_get (KSlot p i) (rev (h i)) else None.
Proof.
  intros Hh. induction l as [|j l IH] using rev_ind; cbn; [reflexivity|].
  rewrite flat_map_app, rev_app_distr, key_get_app, existsb_app, IH. cbn.
  rewrite app_nil_r, orb_false_r.
  destruct (Z.eqb_spec i j) as [<-|Hne].
  - rewrite orb_true_r. destruct (key_get _ (rev (h i))); [reflexivity|].
    destruct (existsb _ l); reflexivity.
  - rewrite orb_false_r.
    assert (Hn : key_get (KSlot p i) (rev (h j)) = None).
    { assert (G : forall m, (forall kv, In kv m -> exists q, fst kv = KSlot q j) ->
                            key_get (KSlot p i) m = None).
      { induction m as [|[k v] m IHm]; intros Hm; cbn; [reflexivity|].
        destruct (Hm (k, v) (or_introl eq_refl)) as [q Hq]. cbn in Hq; subst k.
        cbn. rewrite (proj2 (Z.eqb_neq i j) Hne), andb_false_r.
        apply IHm. intros kv Hkv. apply Hm. right; exact Hkv. }
      apply G. intros kv Hkv. apply Hh. apply in_rev. exact Hkv. }
    rewrite Hn. reflexivity.
Qed.

Lemma zrange_In i a n : In i (zrange a n) <-> a <= i < a + Z.of_nat n.
Proof.
  revert a; induction n as [|n IH]; intros a; cbn [zrange In]; [lia|].
  rewrite IH. lia.
Qed.

Lemma existsb_py_range i a b : existsb (Z.eqb i) (py_range a b) = (a <=? i) && (i <? b).
Proof.
  apply eq_true_iff_eq. rewrite existsb_exists, andb_true_iff, Z.leb_le, Z.ltb_lt.
  unfold py_range. split.
  - intros (x & Hx & E). apply Z.eqb_eq in E; subst x. apply zrange_In in Hx. lia.
  - intros H. exists i. split; [apply zrange_In; lia | apply Z.eqb_refl].
Qed.

Lemma do_fill_line_get p i line :
  In p do_blank_prefixes ->
  key_get (KSlot p i)
    (rev (map (fun pv => (KSlot (fst pv) (dl_index line), snd pv)) (do_line_fields line))) =
  if dl_index line =? i then dict_get p (do_line_fields line) else None.
Proof.
  intros Hp. rewrite Z.eqb_sym.
  repeat (destruct Hp as [<- | Hp]; [cbn; destruct (i =? dl_index line); reflexivity|]).
  destruct Hp.
Qed.

Lemma do_fill_get p i (eff : list do_line) :
  In p do_blank_prefixes ->
  key_get (KSlot p i)
    (rev (flat_map (fun line => map (fun pv => (KSlot (fst pv) (dl_index line), snd pv))
                                    (do_line_fields line)) eff)) =
  match find (fun line => dl_index line =? i) (rev eff) with
  | Some line => dict_get p (do_line_fields line)
  | None => None
  end.
Proof.
  intros Hp. induction eff as [|l eff IH] using rev_ind; [reflexivity|].
  rewrite flat_map_app, rev_app_distr, key_get_app, rev_app_distr. cbn [rev app find flat_map].
  rewrite ?app_nil_r. rewrite do_fill_line_get by exact Hp.
  destruct (dl_index l =? i); [|exact IH].
  destruct Hp as [<- | Hp]; [reflexivity|].
  repeat (destruct Hp as [<- | Hp]; [reflexivity|]). destruct Hp.
Qed.

Lemma do_blank_get p i :
  In p do_blank_prefixes ->
  key_get (KSlot p i) (rev (map (fun q => (KSlot q i, [Txt ""])) do_blank_prefixes)) =
  Some [Txt ""].
Proof.
  intros Hp.
  repeat (destruct Hp as [<- | Hp]; [cbn; rewrite Z.eqb_refl; reflexivity|]). destruct Hp.
Qed.

Lemma do_mapping_slots (date : string) (o : delivery_order) p i :
  In p do_blank_prefixes ->
  let eff := firstn (Z.to_nat MAX_DO_LINES) (lines o) in
  key_get (KSlot p i) (create_delivery_order_mapping date o) =
  if (py_max_default (map dl_index eff) 0 <? i) && (i <=? MAX_DO_LINES) then Some [Txt ""]
  else match find (fun line => dl_index line =? i) (rev eff) with
       | Some line => dict_get p (do_line_fields line)
       | None => None
       end.
Proof.
  intros Hp eff. unfold create_delivery_order_mapping. fold eff.
  rewrite (fold_flatten _ (fun i => map (fun q => (KSlot q i, [Txt ""])) do_blank_prefixes))
    by (intros; rewrite <- fold_map_keys; reflexivity).
  rewrite (fold_flatten _ (fun line => map (fun pv => (KSlot (fst pv) (dl_index line), snd pv))
                                           (do_line_fields line)))
    by (intros; rewrite <- fold_map_keys; reflexivity).
  rewrite key_get_fold, key_get_fold.
  rewrite key_get_indexed.
  2: { intros j kv Hkv. apply in_map_iff in Hkv. destruct Hkv as (q & <- & _). eexists; reflexivity. }
  rewrite existsb_py_range, do_blank_get, do_fill_get by exact Hp.
  cbn [key_get doc_key_eqb].
  replace ((py_max_default (map dl_index eff) 0 + 1 <=? i) && (i <? MAX_DO_LINES + 1))
    with ((py_max_default (map dl_index eff) 0 <? i) && (i <=? MAX_DO_LINES)).
  2: { apply eq_true_iff_eq. rewrite !andb_true_iff, !Z.leb_le, !Z.ltb_lt. lia. }
  destruct (_ && _); [reflexivity|].
  destruct (find _ _); [|reflexivity]. destruct (dict_get _ _); reflexivity.
Qed.
(** X14: in the mapping of [_create_delivery_order_doc], each of the
    eight row placeholders of slot [i] is blanked when [i] lies past the
    largest index of the first 15 lines and is at most 15; otherwise it is
    the field of the last of those lines with index [i], and unset when
    there is none. *)
Lemma create_delivery_order_mapping_slots (date : string) (o : delivery_order) p i :
  In p do_blank_prefixes ->
  key_get (KSlot p i) (create_delivery_order_mapping date o) =
  let eff := firstn (Z.to_nat MAX_DO_LINES) (lines o) in
  if (py_max_default (map dl_index eff) 0 <? i) && (i <=? MAX_DO_LINES) then Some [Txt ""]
  else match find (fun line => dl_index line =? i) (rev eff) with
       | Some line => dict_get p (do_line_fields line)
       | None => None
       end.
Proof. intros Hp. exact (do_mapping_slots date o p i Hp). Qed.


Lemma enumerate_In {A} (l : list A) : forall s i x,
  In (i, x) (enumerate s l) -> s <= i /\ nth_error l (Z.to_nat (i - s)) = Some x.
Proof.
  induction l as [|y l IH]; intros s i x H; cbn in H; [destruct H|].
  destruct H as [E | H].
  - injection E as -> ->. rewrite Z.sub_diag. split; [lia | reflexivity].
  - destruct (IH _ _ _ H) as [Hle Hn]. split; [lia|].
    replace (Z.to_nat (i - s)) with (S (Z.to_nat (i - (s + 1)))) by lia. exact Hn.
Qed.

Lemma fold_max_ge (ys : list Z) : forall y,
  y <= fold_left Z.max ys y /\ forall x, In x ys -> x <= fold_left Z.max ys y.
Proof.
  induction ys as [|y' ys IH]; intros y; cbn; [split; [lia | tauto]|].
  destruct (IH (Z.max y y')) as [H1 H2]. split; [lia|].
  intros x [<- | Hx]; [lia | exact (H2 x Hx)].
Qed.

Lemma py_max_default_ge xs d x : In x xs -> x <= py_max_default xs d.
Proof.
  destruct xs as [|y ys]; [intros []|]. cbn. intros [<- | Hx].
  - exact (proj1 (fold_max_ge ys _)).
  - exact (proj2 (fold_max_ge ys y) x Hx).
Qed.

Lemma In_firstn {A} n (l : list A) x : In x (firstn n l) -> In x l.
Proof. intros H. rewrite <- (firstn_skipn n l). apply in_or_app. left; exact H. Qed.

Lemma built_line_position (outlet : string) (rows : list order_row) line :
  In line (lines (build_delivery_order_from_rows outlet rows)) ->
  exists r, 1 <= dl_index line /\ nth_error rows (Z.to_nat (dl_index line - 1)) = Some r /\
            0 < o_quantity r.
Proof.
  unfold build_delivery_order_from_rows.
  pose proof (build_lines_closed rows 1 [] 0) as H.
  destruct (build_lines 1 rows [] 0) as [ls g]. cbn in H |- *. subst ls.
  intros Hin. apply in_map_iff in Hin. destruct Hin as ([i r] & <- & Hin).
  apply filter_In in Hin. destruct Hin as [Hin Hq]. apply Z.ltb_lt in Hq.
  apply enumerate_In in Hin. exists r. cbn. tauto.
Qed.

(** X15: when a row with quantity [<= 0] is skipped by the builder and a
    later row is kept among the first 15 lines, no placeholder of the
    skipped row's slot is set by [_create_delivery_order_doc]'s mapping:
    it is neither filled nor blanked. *)
Lemma delivery_order_skipped_slot_unset (date outlet : string) (rows : list order_row) p j r :
  In p do_blank_prefixes -> 1 <= j ->
  nth_error rows (Z.to_nat (j - 1)) = Some r -> o_quantity r <= 0 ->
  (exists line, In line (firstn (Z.to_nat MAX_DO_LINES)
                                (lines (build_delivery_order_from_rows outlet rows))) /\
                j < dl_index line) ->
  key_get (KSlot p j)
          (create_delivery_order_mapping date (build_delivery_order_from_rows outlet rows)) = None.
Proof.
  intros Hp Hj Hr Hq (line & Hline & Hlt).
  rewrite (do_mapping_slots date _ p j Hp). cbv zeta.
  set (eff := firstn (Z.to_nat MAX_DO_LINES) (lines (build_delivery_order_from_rows outlet rows))) in *.
  assert (Hmax : dl_index line <= py_max_default (map dl_index eff) 0)
    by (apply py_max_default_ge, in_map; exact Hline).
  replace (py_max_default (map dl_index eff) 0 <? j) with false by (symmetry; apply Z.ltb_ge; lia).
  cbn [andb].
  destruct (find (fun line => dl_index line =? j) (rev eff)) as [x|] eqn:Ef; [|reflexivity].
  exfalso. apply find_some in Ef. destruct Ef as [Hx Hxj].
  apply Z.eqb_eq in Hxj. apply in_rev, In_firstn in Hx.
  destruct (built_line_position outlet rows x Hx) as (r' & _ & Hr' & Hq').
  rewrite Hxj, Hr in Hr'. injection Hr' as <-. lia.
Qed.

(** X16: in the mapping of [_create_barcode_doc], for each of the cat,
    price and barcode placeholders, slot [i] with [1 <= i <= 280] is filled
    from the [i]-th expanded unit when there is one and blanked otherwise;
    no other slot is set. *)
Lemma barcode_mapping_slots (o : delivery_order) p i :
  In p barcode_blank_prefixes ->
  key_get (KSlot p i) (create_barcode_mapping o) =
  if (1 <=? i) && (i <=? MAX_BARCODE_SLOTS) then
    match nth_error (expand_lines_for_barcode o) (Z.to_nat (i - 1)) with
    | Some entry => dict_get p (barcode_fields entry)
    | None => Some [Txt ""]
    end
  else None.
Proof.
  intros Hp. unfold create_barcode_mapping.
  set (expanded := expand_lines_for_barcode o).
  set (n := Z.min MAX_BARCODE_SLOTS (Z.of_nat (length expanded))).
  set (hfill := fun i => match nth_error expanded (Z.to_nat (i - 1)) with
                         | Some e => map (fun pv => (KSlot (fst pv) i, snd pv)) (barcode_fields e)
                         | None => []
                         end).
  rewrite (fold_flatten _ (fun i => map (fun q => (KSlot q i, [Txt ""])) barcode_blank_prefixes))
    by (intros; rewrite <- fold_map_keys; reflexivity).
  rewrite (fold_flatten _ hfill).
  2: { intros m x. unfold hfill. destruct (nth_error expanded (Z.to_nat (x - 1)));
       [rewrite <- fold_map_keys|]; reflexivity. }
  rewrite key_get_fold, key_get_fold.
  rewrite key_get_indexed.
  2: { intros j kv Hkv. apply in_map_iff in Hkv. destruct Hkv as (q & <- & _). eexists; reflexivity. }
  rewrite (key_get_indexed hfill).
  2: { intros j kv Hkv. unfold hfill in Hkv. destruct (nth_error expanded (Z.to_nat (j - 1)));
       [|destruct Hkv]. apply in_map_iff in Hkv. destruct Hkv as (q & <- & _). eexists; reflexivity. }
  rewrite !existsb_py_range.
  assert (Hblank : key_get (KSlot p i) (rev (map (fun q => (KSlot q i, [Txt ""])) barcode_blank_prefixes))
                   = Some [Txt ""]).
  { repeat (destruct Hp as [<- | Hp]; [cbn; rewrite Z.eqb_refl; reflexivity|]). destruct Hp. }
  assert (Hfill : key_get (KSlot p i) (rev (hfill i)) =
                  match nth_error expanded (Z.to_nat (i - 1)) with
                  | Some e => dict_get p (barcode_fields e)
                  | None => None
                  end).
  { unfold hfill. destruct (nth_error expanded (Z.to_nat (i - 1))); [|reflexivity].
    repeat (destruct Hp as [<- | Hp]; [cbn; rewrite Z.eqb_refl; reflexivity|]). destruct Hp. }
  rewrite Hblank, Hfill. cbn [key_get].
  assert (Hn : n <= MAX_BARCODE_SLOTS /\ n <= Z.of_nat (length expanded) /\
               (n < MAX_BARCODE_SLOTS -> n = Z.of_nat (length expanded))) by (unfold n; lia).
  clearbody n.
  destruct (Z.leb_spec 1 i); destruct (Z.leb_spec i MAX_BARCODE_SLOTS);
    destruct (Z.leb_spec (n + 1) i); destruct (Z.ltb_spec i (MAX_BARCODE_SLOTS + 1));
    destruct (Z.ltb_spec i (n + 1)); cbn [andb]; try lia; try reflexivity.
  - destruct (nth_error expanded (Z.to_nat (i - 1))) eqn:E; [|reflexivity].
    exfalso. assert (Hlt : (Z.to_nat (i - 1) < length expanded)%nat)
      by (apply nth_error_Some; congruence). unfold MAX_BARCODE_SLOTS in *; lia.
  - destruct (nth_error expanded (Z.to_nat (i - 1))) as [e|] eqn:E.
    + destruct (dict_get p (barcode_fields e)); reflexivity.
    + apply nth_error_None in E. unfold MAX_BARCODE_SLOTS in *; lia.
Qed.

Lemma flatten_copies_spec {A} (x : A) k m items :
  (length items <= Z.to_nat m)%nat ->
  flatten_copies x k m items =
  (negb (length items + k <=? Z.to_nat m)%nat, firstn (Z.to_nat m) (app items (repeat x k))).
Proof.
  revert items; induction k as [|k IH]; intros items Hl; cbn [flatten_copies repeat].
  - rewrite app_nil_r, Nat.add_0_r, firstn_all2 by lia.
    replace (length items <=? Z.to_nat m)%nat with true by (symmetry; apply Nat.leb_le; lia).
    reflexivity.
  - destruct (Z.leb_spec m (Z.of_nat (length items))) as [Hm|Hm].
    + assert (length items = Z.to_nat m) by lia.
      replace (length items + S k <=? Z.to_nat m)%nat with false by (symmetry; apply Nat.leb_gt; lia).
      rewrite firstn_app, H, Nat.sub_diag, firstn_all2 by lia. cbn. rewrite app_nil_r. reflexivity.
    + rewrite IH by (rewrite length_app; cbn; lia).
      rewrite length_app, <- app_assoc. cbn [length app].
      replace (length items + 1 + k)%nat with (length items + S k)%nat by lia.
      reflexivity.
Qed.

Lemma flatten_lines_spec idx ls b m items :
  (length items <= Z.to_nat m)%nat ->
  flatten_lines idx ls b m items =
  firstn (Z.to_nat m)
    (app items (flat_map (fun il => repeat (snd il, nth_error b (Z.to_nat (fst il)))
                                           (Z.to_nat (dl_qty (snd il))))
                         (enumerate (Z.of_nat idx) ls))).
Proof.
  revert idx items; induction ls as [|line rest IH]; intros idx items Hl.
  - cbn. rewrite app_nil_r, firstn_all2 by lia. reflexivity.
  - cbn [flatten_lines enumerate flat_map fst snd].
    rewrite Nat2Z.id, flatten_copies_spec by exact Hl.
    destruct (Nat.leb_spec (length items + Z.to_nat (dl_qty line)) (Z.to_nat m)) as [Hk|Hk];
      cbn [negb].
    + rewrite firstn_all2 by (rewrite length_app, repeat_length; lia).
      replace (Z.of_nat idx + 1) with (Z.of_nat (S idx)) by lia.
      rewrite IH by (rewrite length_app, repeat_length; lia).
      rewrite app_assoc. reflexivity.
    + rewrite app_assoc, (firstn_app (Z.to_nat m) (app items (repeat (line, nth_error b idx) (Z.to_nat (dl_qty line))))).
      replace (Z.to_nat m - length (app items (repeat (line, nth_error b idx) (Z.to_nat (dl_qty line)))))%nat
        with O by (rewrite length_app, repeat_length; lia).
      cbn [firstn]. rewrite ?app_nil_r. reflexivity.
Qed.

(** X17: [_flatten_delivery_order_lines] returns exactly the first
    [max_slots] of the per-unit expansion of the order's lines, each unit
    paired with the barcode file id at its line's position ([None] past
    the end of [order.barcodes]). *)
Lemma flatten_delivery_order_lines_prefix o b m :
  flatten_delivery_order_lines o b m =
  firstn (Z.to_nat m)
    (flat_map (fun il => repeat (snd il, nth_error b (Z.to_nat (fst il)))
                                (Z.to_nat (dl_qty (snd il))))
              (enumerate 0 (lines o))).
Proof.
  unfold flatten_delivery_order_lines.
  rewrite flatten_lines_spec by (cbn; lia). reflexivity.
Qed.

(** ** Witnesses of the further properties *)

Lemma insert_stock_log_failure_no_write_witness :
  exists msg ins d',
    insert_stock_log sample_out_input (set_faults sample_db [true]) = (false, msg, ins, d') /\
    ins = None /\ items d' = items (set_faults sample_db [true]) /\
    price_history d' = price_history (set_faults sample_db [true]) /\
    item_stock_log d' = item_stock_log (set_faults sample_db [true]) /\
    item_stock d' = item_stock (set_faults sample_db [true]).
Proof.
  exists store_error, None, sample_db.
  split; [reflexivity|].
  apply (insert_stock_log_failure_no_write sample_out_input (set_faults sample_db [true])
           store_error None sample_db).
  reflexivity.
Defined.

Lemma insert_stock_log_missing_keys_witness :
  insert_stock_log sample_untyped_input sample_db = (false, "'movement_type'", None, sample_db) /\
  insert_stock_log sample_no_category_input sample_db =
  (false, "Missing category_id to resolve item_id", None, sample_db).
Proof.
  split.
  - exact (proj1 (insert_stock_log_missing_keys sample_untyped_input sample_db) eq_refl).
  - destruct (insert_stock_log_missing_keys sample_no_category_input sample_db) as [_ H].
    destruct (H "in_stock" eq_refl ltac:(cbn; tauto)) as [_ H2].
    destruct (H2 5 eq_refl ltac:(discriminate)) as [H3 _].
    exact (H3 eq_refl eq_refl).
Defined.

Lemma insert_stock_log_resolves_item_witness :
  let p := mk_log 1 4 (size_or_default None) "in_stock" (enforce_sign "in_stock" 5) in
  let '(ok, msg, ins, d') := insert_stock_log sample_resolve_input sample_stock_db in
  ok = true /\ ins = Some p /\ item_stock_log d' = (item_stock_log sample_stock_db ++ [p])%list.
Proof.
  destruct (insert_stock_log_resolves_item sample_resolve_input sample_stock_db "in_stock" 5 1 2 3
              eq_refl ltac:(cbn; tauto) eq_refl ltac:(discriminate) eq_refl eq_refl eq_refl
              eq_refl eq_refl) as [_ H].
  exact (H (mk_item 1 1 2 3 None) [] 4 eq_refl eq_refl eq_refl).
Defined.

Lemma insert_item_then_get_item_cost_witness :
  fst (get_item_cost 1 2 3 (snd (insert_item sample_row2 (set_faults sample_priced_db []))))
  = Returns (Some (input_comps sample_row2)).
Proof.
  exact (insert_item_then_get_item_cost sample_row2 (set_faults sample_priced_db [])
           eq_refl ltac:(vm_compute; lia)).
Defined.

Lemma insert_item_then_get_item_id_witness :
  let it := resolved_item sample_row1 sample_db in
  let '(_, _, res, d') := insert_item sample_row1 sample_db in
  (exists p ch, res = ItemPrice it p ch) /\
  fst (get_item_id_from_attrs 1 2 3 d') = (true, "OK", Some (i_id it)).
Proof. exact (insert_item_then_get_item_id sample_row1 sample_db eq_refl). Defined.

Lemma get_item_qty_stock_via_item_id_witness :
  get_item_id_from_attrs 1 2 3 sample_stock_db = (true, "OK", Some 1, sample_stock_db) /\
  get_item_qty_stock 1 2 3 4 "M" sample_stock_db =
  get_item_qty_stock_by_item_id 1 4 "M" sample_stock_db.
Proof.
  split; [reflexivity|].
  exact (proj1 (get_item_qty_stock_via_item_id 1 2 3 4 "M" sample_stock_db)
           true "OK" 1 sample_stock_db eq_refl).
Defined.

Lemma insert_item_close_then_insert_fails_witness :
  let '(ok, msg, res, d') := insert_item sample_row2 sample_priced_db in
  ok = false /\ msg = store_error /\ res = NoData /\
  items d' = items sample_priced_db /\
  price_history d' = map (close_price (p_id sample_price) (clock sample_priced_db))
                         (price_history sample_priced_db) /\
  item_price_current (i_id sample_item) d' = [].
Proof.
  exact (insert_item_close_then_insert_fails sample_row2 sample_priced_db sample_item sample_price
           eq_refl eq_refl ltac:(vm_compute; discriminate) eq_refl).
Defined.

Lemma get_items_in_stock_meta_witness :
  exists m, dict_get "SKU1|M" (get_items_in_stock sample_stock_rows [(1, PInt 50000)]) = Some m /\
  exists pre row post it,
    sample_stock_rows = (pre ++ row :: post)%list /\ q_item row = Some it /\
    "SKU1|M" = j_sku it ++ "|" ++ q_size row /\
    Forall (fun r => has_key "SKU1|M" r = false) pre /\
    m = dict_set "quantity" (PInt (key_total "SKU1|M" sample_stock_rows))
                 (meta_entry it (q_size row) (price_get (j_id it) [(1, PInt 50000)])).
Proof.
  eexists. split; [reflexivity|].
  apply (get_items_in_stock_meta sample_stock_rows [(1, PInt 50000)] "SKU1|M" _).
  reflexivity.
Defined.

Lemma sku_size_to_key_roundtrip_witness :
  exists m, dict_get "SKU1|M" (get_items_in_stock sample_stock_rows [(1, PInt 50000)]) = Some m /\
  pair_get (dict_get_default "sku" PNone m) (dict_get_default "size" PNone m)
           (sku_size_to_key (get_items_in_stock sample_stock_rows [(1, PInt 50000)])) =
  Some "SKU1|M".
Proof.
  eexists. split; [reflexivity|].
  apply (sku_size_to_key_roundtrip sample_stock_rows [(1, PInt 50000)] "SKU1|M" _).
  reflexivity.
Defined.

Lemma create_delivery_order_mapping_slots_witness :
  key_get (KSlot "cat" 1) (create_delivery_order_mapping "01/01/2025" sample_order) =
  let eff := firstn (Z.to_nat MAX_DO_LINES) (lines sample_order) in
  if (py_max_default (map dl_index eff) 0 <? 1) && (1 <=? MAX_DO_LINES) then Some [Txt ""]
  else match find (fun line => dl_index line =? 1) (rev eff) with
       | Some line => dict_get "cat" (do_line_fields line)
       | None => None
       end.
Proof.
  exact (create_delivery_order_mapping_slots "01/01/2025" sample_order "cat" 1
           ltac:(cbn; tauto)).
Defined.

Lemma delivery_order_skipped_slot_unset_witness :
  key_get (KSlot "cat" 1)
          (create_delivery_order_mapping "01/01/2025"
             (build_delivery_order_from_rows "Banda" sample_order_rows)) = None.
Proof.
  apply (delivery_order_skipped_slot_unset "01/01/2025" "Banda" sample_order_rows "cat" 1
           (mk_order_row "SKU0" "M" "Polo" "Kaos" "Merah" 0 50000)).
  - cbn; tauto.
  - lia.
  - reflexivity.
  - cbn; lia.
  - exists (mk_do_line 2 "T005-Kaos-Polo" "SKU1" "Merah" "L" 2 50000 100000).
    split; [vm_compute; left; reflexivity | reflexivity].
Defined.

Lemma barcode_mapping_slots_witness :
  key_get (KSlot "price" 2) (create_barcode_mapping sample_order) =
  if (1 <=? 2) && (2 <=? MAX_BARCODE_SLOTS) then
    match nth_error (expand_lines_for_barcode sample_order) (Z.to_nat (2 - 1)) with
    | Some entry => dict_get "price" (barcode_fields entry)
    | None => Some [Txt ""]
    end
  else None.
Proof. exact (barcode_mapping_slots sample_order "price" 2 ltac:(cbn; tauto)). Defined.
